(** * Learn with Jiji: the request pipeline of the /ask-jiji endpoint

    A shallow embedding of the TypeScript service: configuration
    (config/supabase.ts), the authentication and validation middleware, the
    ask-jiji controller, the query log service and the terminal handlers of
    server.ts, followed by the properties of the written specification. *)

From stdpp Require Import gmap strings list fin_maps.
From Stdlib Require Import NArith ZArith Lia.
From Stdlib Require Ascii String.

#[local] Set Warnings "-register-all".
#[local] Open Scope N_scope.

(** ** JavaScript strings

    A JavaScript string is a sequence of UTF-16 code units; [length],
    [startsWith], [substring], [split], [trim] and [join] all count and cut
    in code units. *)
Module JsString.

Abbreviation jsstr := (list N).

(** A source literal (Basic Latin only) as a JavaScript string. *)
Definition js (s : string) : jsstr :=
  List.map Ascii.N_of_ascii (String.list_ascii_of_string s).

Definition eqb (a b : jsstr) : bool := bool_decide (a = b).

(** [a || b] on strings: the empty string is falsy. *)
Definition orElse (a b : jsstr) : jsstr :=
  match a with [] => b | _ => a end.

(** [s.startsWith(p)] *)
Fixpoint startsWith (p s : jsstr) : bool :=
  match p, s with
  | [], _ => true
  | _ :: _, [] => false
  | a :: p', b :: s' => (a =? b) && startsWith p' s'
  end.

(** [s.substring(n)] for [n >= 0]: the units from index [n] on. *)
Definition substring (n : nat) (s : jsstr) : jsstr := drop n s.

(** [s.split(sep)] for a separator of one code unit. *)
Fixpoint split (sep : N) (s : jsstr) : list jsstr :=
  match s with
  | [] => [[]]
  | c :: r =>
      if c =? sep then [] :: split sep r
      else match split sep r with
           | seg :: segs => (c :: seg) :: segs
           | [] => [[c]]
           end
  end.

(** [xs.join(sep)] *)
Fixpoint join (sep : jsstr) (xs : list jsstr) : jsstr :=
  match xs with
  | [] => []
  | [x] => x
  | x :: rest => x ++ sep ++ join sep rest
  end.

(** WhiteSpace and LineTerminator of ECMAScript, the code units that
    [String.prototype.trim] strips. *)
Definition isWhiteSpace (c : N) : bool :=
  (c =? 9) || (c =? 10) || (c =? 11) || (c =? 12) || (c =? 13) || (c =? 32)
  || (c =? 160) || (c =? 5760) || ((8192 <=? c) && (c <=? 8202))
  || (c =? 8232) || (c =? 8233) || (c =? 8239) || (c =? 8287)
  || (c =? 12288) || (c =? 65279).

Fixpoint trimStart (s : jsstr) : jsstr :=
  match s with
  | [] => []
  | c :: r => if isWhiteSpace c then trimStart r else s
  end.

Definition trimEnd (s : jsstr) : jsstr := rev (trimStart (rev s)).

(** [s.trim()] *)
Definition trim (s : jsstr) : jsstr := trimEnd (trimStart s).

(** [hay.includes(needle)] *)
Fixpoint includes (needle hay : jsstr) : bool :=
  startsWith needle hay ||
  match hay with
  | [] => false
  | _ :: r => includes needle r
  end.

(** Every code unit is white space (the empty string included). *)
Definition whitespaceOnly (s : jsstr) : bool := forallb isWhiteSpace s.

End JsString.
Import JsString.

(** ** JSON values, as [express.json()] leaves them in [req.body]

    An object is a finite map from keys to values.  Numbers are kept as
    integers: no handler reads one. *)

Inductive JSON :=
| JNull
| JBool (b : bool)
| JNumber (n : Z)
| JString (s : jsstr)
| JArray (items : list JSON)
| JObject (fields : gmap jsstr JSON).

(** ** Errors and completions

    [Error | AppError] of error-handler.middleware.ts: [AppError] extends
    [Error] with a [statusCode] (500 when the constructor is given none). *)

Inductive JsError :=
| Error (message : jsstr)
| AppError (message : jsstr) (statusCode : Z).

Definition message_of (err : JsError) : jsstr :=
  match err with
  | Error m => m
  | AppError m _ => m
  end.

(** How a call ends: it returns (a promise resolves) or it throws (the
    promise rejects). *)
Inductive Completion (A : Type) :=
| Returned (a : A)
| Thrown (e : JsError).
Arguments Returned {A} a.
Arguments Thrown {A} e.

(** ** config/supabase.ts *)
Module Config.

Record ProcessEnv := {
  SUPABASE_URL : option jsstr;
  SUPABASE_ANON_KEY : option jsstr;
  SUPABASE_SERVICE_ROLE_KEY : option jsstr;
  NODE_ENV : option jsstr
}.

(** Truthiness of [process.env.X]: set and not the empty string. *)
Definition truthy (v : option jsstr) : bool :=
  match v with
  | Some (_ :: _) => true
  | _ => false
  end.

(** The handle [createClient(url, key)] returns. *)
Record SupabaseClient := { clientUrl : jsstr; clientKey : jsstr }.

Definition createClient (url key : jsstr) : SupabaseClient :=
  {| clientUrl := url; clientKey := key |}.

Definition isSupabaseConfigured (env : ProcessEnv) : bool :=
  truthy (SUPABASE_URL env) && truthy (SUPABASE_ANON_KEY env).

Definition isSupabaseAdminConfigured (env : ProcessEnv) : bool :=
  truthy (SUPABASE_URL env) && truthy (SUPABASE_SERVICE_ROLE_KEY env).

Definition supabase (env : ProcessEnv) : option SupabaseClient :=
  match SUPABASE_URL env, SUPABASE_ANON_KEY env with
  | Some url, Some key =>
      if isSupabaseConfigured env && truthy (Some url) && truthy (Some key)
      then Some (createClient url key) else None
  | _, _ => None
  end.

Definition supabaseAdmin (env : ProcessEnv) : option SupabaseClient :=
  match SUPABASE_URL env, SUPABASE_SERVICE_ROLE_KEY env with
  | Some url, Some key =>
      if isSupabaseAdminConfigured env && truthy (Some url) && truthy (Some key)
      then Some (createClient url key) else None
  | _, _ => None
  end.

(** [process.env.NODE_ENV === "production"] *)
Definition isProduction (env : ProcessEnv) : bool :=
  match NODE_ENV env with
  | Some v => eqb v (js "production")
  | None => false
  end.

End Config.
Import Config.

(** ** types/api-types.ts *)

Inductive ResourceType := ppt | video.

Record Resource := {
  r_id : jsstr;
  r_title : jsstr;
  r_description : jsstr;
  r_type : ResourceType;
  r_file_url : jsstr;
  r_tags : list jsstr;
  r_created_at : jsstr
}.

Record ResourceResponse := {
  rr_id : jsstr;
  rr_title : jsstr;
  rr_type : ResourceType;
  rr_url : jsstr
}.

(** The [data] member of a response: [AskJijiData], or the object the health
    route builds. *)
Inductive ResponseData :=
| AskJijiData (answer : jsstr) (resources : list ResourceResponse)
| HealthData (status timestamp environment : jsstr).

Record ValidationErrorDetail := {
  field : jsstr;
  message : jsstr;
  code : jsstr
}.

(** [ApiResponse<T> & { details? }]: an absent member is [None]. *)
Record ApiResponse := {
  success : bool;
  data : option ResponseData;
  error : option jsstr;
  details : option (list ValidationErrorDetail)
}.

Definition failure (msg : jsstr) : ApiResponse :=
  {| success := false; data := None; error := Some msg; details := None |}.

(** ** Zod, as far as [askJijiSchema] uses it

    The schema is written in the source with the combinators of Zod 4
    ([z.string({ error })]); the library itself is not part of the
    repository.  What follows is its documented behaviour for the operators
    of the schema: the checks of a string schema run in the order they were
    chained, [trim] rewrites the value for the checks after it, an issue of
    [min], [max] or [refine] does not stop the later checks, and a value of
    the wrong type stops all of them but the length checks, which run on
    anything that has a [length]. *)
Module z.

Record ZodIssue := {
  issue_code : jsstr;
  issue_path : list jsstr;
  issue_message : jsstr
}.

(** What [schema.parse(input)] does: return the parsed value, throw a
    [ZodError] carrying the issues, or throw something else. *)
Inductive ParseOutcome :=
| Parsed (value : JSON)
| ThrowsZodError (issues : list ZodIssue)
| ThrowsOther (e : JsError).

(** [ZodSchema<T>]: anything with a [parse]; [None] is [undefined]. *)
Definition ZodSchema := option JSON -> ParseOutcome.

Inductive StringCheck :=
| min (minimum : nat) (msg : jsstr)
| max (maximum : nat) (msg : jsstr)
| trim
| refine (fn : jsstr -> bool) (msg : jsstr).

(** [z.string({ error }).check1().check2()...] *)
Record ZodString := {
  invalid_type_error : jsstr;
  checks : list StringCheck
}.

(** The payload a schema threads through its checks; an issue is kept with
    its [continue] flag. *)
Record ParsePayload := {
  value : option JSON;
  issues : list (ZodIssue * bool)
}.

Definition aborted (iss : list (ZodIssue * bool)) : bool :=
  existsb (fun i => negb (snd i)) iss.

Definition push (p : ParsePayload) (c m : jsstr) (continue : bool)
  : ParsePayload :=
  {| value := value p;
     issues := issues p ++
       [({| issue_code := c; issue_path := []; issue_message := m |},
         continue)] |}.

(** [input.length], for the JSON values that always have one.  An object
    with a member [length] has one too, and the length checks then compare
    that member; this is not modelled: for such an input the library
    can raise the issues of the length checks as well. *)
Definition lengthOf (v : option JSON) : option nat :=
  match v with
  | Some (JString s) => Some (length s)
  | Some (JArray items) => Some (length items)
  | _ => None
  end.

Definition runCheck (isAborted : bool) (ch : StringCheck) (p : ParsePayload)
  : ParsePayload :=
  match ch with
  | min n m =>
      match lengthOf (value p) with
      | Some len => if (n <=? len)%nat then p else push p (js "too_small") m true
      | None => p
      end
  | max n m =>
      match lengthOf (value p) with
      | Some len => if (len <=? n)%nat then p else push p (js "too_big") m true
      | None => p
      end
  | trim =>
      if isAborted then p else
      match value p with
      | Some (JString s) =>
          {| value := Some (JString (JsString.trim s)); issues := issues p |}
      | _ => p
      end
  | refine fn m =>
      if isAborted then p else
      match value p with
      | Some (JString s) => if fn s then p else push p (js "custom") m true
      | _ => p
      end
  end.

Fixpoint runChecks (isAborted : bool) (chs : list StringCheck)
  (p : ParsePayload) : ParsePayload :=
  match chs with
  | [] => p
  | ch :: rest =>
      let p' := runCheck isAborted ch p in
      runChecks (isAborted || aborted (drop (length (issues p)) (issues p')))
        rest p'
  end.

(** Running a string schema on a value ([None]: the key is absent). *)
Definition runString (sch : ZodString) (input : option JSON) : ParsePayload :=
  let p0 := {| value := input; issues := [] |} in
  let p1 :=
    match input with
    | Some (JString _) => p0
    | _ => push p0 (js "invalid_type") (invalid_type_error sch) false
    end in
  runChecks (aborted (issues p1)) (checks sch) p1.

(** The name the default message gives to the type of the input. *)
Definition parsedType (input : option JSON) : jsstr :=
  match input with
  | None => js "undefined"
  | Some JNull => js "null"
  | Some (JBool _) => js "boolean"
  | Some (JNumber _) => js "number"
  | Some (JString _) => js "string"
  | Some (JArray _) => js "array"
  | Some (JObject _) => js "object"
  end.

Definition prefixIssue (key : jsstr) (i : ZodIssue * bool) : ZodIssue :=
  {| issue_code := issue_code (fst i);
     issue_path := key :: issue_path (fst i);
     issue_message := issue_message (fst i) |}.

(** The keys of the shape, in order: issues are prefixed with the key, and the
    output keeps only the keys of the shape (unknown keys are stripped). *)
Fixpoint runShape (shape : list (jsstr * ZodString)) (input : gmap jsstr JSON)
  : gmap jsstr JSON * list ZodIssue :=
  match shape with
  | [] => (∅, [])
  | (key, sch) :: rest =>
      let r := runString sch (input !! key) in
      let '(out, iss) := runShape rest input in
      (match value r with
       | Some v => <[key := v]> out
       | None => out
       end,
       List.map (prefixIssue key) (issues r) ++ iss)
  end.

(** [z.object(shape)] with string members. *)
Definition object (shape : list (jsstr * ZodString)) : ZodSchema :=
  fun input =>
    match input with
    | Some (JObject o) =>
        match runShape shape o with
        | (out, []) => Parsed (JObject out)
        | (_, iss) => ThrowsZodError iss
        end
    | _ =>
        ThrowsZodError
          [{| issue_code := js "invalid_type";
              issue_path := [];
              issue_message :=
                js "Invalid input: expected object, received "
                ++ parsedType input |}]
    end.

Definition string (error : jsstr) (chs : list StringCheck) : ZodString :=
  {| invalid_type_error := error; checks := chs |}.

End z.

(** ** The hosted backend

    The auth service and the database are reached through the client SDK; the
    service only sees how each call ends.  A [Backend] fixes those endings, so
    that a statement over every [Backend] is a statement over every behaviour
    of the hosted services. *)

Record SupabaseUser := {
  su_id : jsstr;
  su_email : option jsstr;
  su_role : option jsstr
}.

(** [{ data: { user }, error }] of [supabase.auth.getUser] *)
Record UserResponse := {
  ur_user : option SupabaseUser;
  ur_error : option jsstr
}.

(** [{ data, error }] of a PostgREST call *)
Record PostgrestResponse (A : Type) := {
  pg_data : option A;
  pg_error : option jsstr
}.
Arguments pg_data {A} _.
Arguments pg_error {A} _.

(** The row [saveQuery] inserts into [queries]. *)
Record QueryInsert := {
  user_id : option jsstr;
  query_text : jsstr;
  answer_text : jsstr;
  resources_returned : list jsstr
}.

Record SavedQuery := {
  sq_id : jsstr;
  sq_user_id : option jsstr;
  sq_query_text : jsstr;
  sq_answer_text : option jsstr;
  sq_resources_returned : list jsstr;
  sq_created_at : jsstr
}.

Record Backend := {
  auth_getUser : jsstr -> Completion UserResponse;
  queries_insert : QueryInsert -> Completion (PostgrestResponse SavedQuery);
  resources_search : jsstr -> Completion (PostgrestResponse (list Resource));
  clock_toISOString : jsstr
}.

(** ** One request/response exchange *)

(** [req.user] of [AuthenticatedRequest] *)
Record User := {
  user_ident : jsstr;
  user_email : jsstr;
  user_role : jsstr
}.

Record Request := {
  method : jsstr;
  path : jsstr;
  authorization : option jsstr;   (* req.headers.authorization *)
  body : option JSON;             (* req.body; None is undefined *)
  user : option User              (* req.user *)
}.

Inductive Level := debug | info | warn | error_level.

(** A log call; only its level and message are kept. *)
Record LogEntry := { level : Level; text : jsstr }.

(** The arguments of one [saveQuery(userId, query, answer, resourceIds)]. *)
Record SaveQueryCall := {
  sc_userId : option jsstr;
  sc_queryText : jsstr;
  sc_answerText : jsstr;
  sc_resourceIds : list jsstr
}.

(** What a handler can touch: the request it mutates, the response it may
    send ([res.status(c).json(b)]), whether it called [next()] or
    [next(err)], the log, the rows sent to the [queries] table, and the
    [saveQuery] calls started without being awaited. *)
Record Exchange := {
  req : Request;
  res : option (Z * ApiResponse);
  forwarded : option (option JsError);
  journal : list LogEntry;
  inserted : list QueryInsert;
  detached : list SaveQueryCall
}.

Definition incoming (r : Request) : Exchange :=
  {| req := r; res := None; forwarded := None; journal := [];
     inserted := []; detached := [] |}.

(** ** The monad of handler code: state over the exchange, with exceptions *)

Definition Js (A : Type) : Type := Exchange -> Completion A * Exchange.

#[global] Instance Js_ret : MRet Js := fun A a σ => (Returned a, σ).

#[global] Instance Js_bind : MBind Js := fun A B f m σ =>
  match m σ with
  | (Returned a, σ') => f a σ'
  | (Thrown e, σ') => (Thrown e, σ')
  end.

(** [try { body } catch (error) { handler }] *)
Definition tryCatch {A} (body_ : Js A) (handler : JsError -> Js A) : Js A :=
  fun σ =>
    match body_ σ with
    | (Returned a, σ') => (Returned a, σ')
    | (Thrown e, σ') => handler e σ'
    end.

(** [await p] for a call that ends as [c]. *)
Definition await {A} (c : Completion A) : Js A := fun σ => (c, σ).

Definition getReq : Js Request := fun σ => (Returned (req σ), σ).

Definition logger (l : Level) (msg : jsstr) : Js unit := fun σ =>
  (Returned tt,
   {| req := req σ; res := res σ; forwarded := forwarded σ;
      journal := journal σ ++ [{| level := l; text := msg |}];
      inserted := inserted σ; detached := detached σ |}).

(** The status codes a response can be sent with: outside 100..999
    [res.status(code)], or else the [writeHead] under [res.json], throws a
    [RangeError]. *)
Definition validStatus (status : Z) : bool :=
  (100 <=? status)%Z && (status <=? 999)%Z.

(** [res.status(status).json(response)]: sends the response, or throws on a
    status that is no valid code and sends nothing. *)
Definition res_status_json (status : Z) (response : ApiResponse) : Js unit :=
  fun σ =>
  if validStatus status
  then
    (Returned tt,
     {| req := req σ; res := Some (status, response);
        forwarded := forwarded σ; journal := journal σ;
        inserted := inserted σ; detached := detached σ |})
  else (Thrown (Error (js "Invalid status code")), σ).

(** [next()] and [next(err)] *)
Definition next_with (err : option JsError) : Js unit := fun σ =>
  (Returned tt,
   {| req := req σ; res := res σ; forwarded := Some err;
      journal := journal σ; inserted := inserted σ; detached := detached σ |}).

Definition next : Js unit := next_with None.

Definition set_req (r : Request) : Js unit := fun σ =>
  (Returned tt,
   {| req := r; res := res σ; forwarded := forwarded σ;
      journal := journal σ; inserted := inserted σ; detached := detached σ |}).

(** [req.user = u] *)
Definition set_user (u : User) : Js unit :=
  r ← getReq;
  set_req {| method := method r; path := path r;
             authorization := authorization r; body := body r;
             user := Some u |}.

(** [req.body = parsed] *)
Definition set_body (parsed : JSON) : Js unit :=
  r ← getReq;
  set_req {| method := method r; path := path r;
             authorization := authorization r; body := Some parsed;
             user := user r |}.

Definition record_insert (row : QueryInsert) : Js unit := fun σ =>
  (Returned tt,
   {| req := req σ; res := res σ; forwarded := forwarded σ;
      journal := journal σ; inserted := inserted σ ++ [row];
      detached := detached σ |}).

(** A call started and not awaited.  The whole call is taken up when the
    exchange settles; in the code the part of it before its first [await]
    runs at once, which shows in the order of the log only. *)
Definition detach (c : SaveQueryCall) : Js unit := fun σ =>
  (Returned tt,
   {| req := req σ; res := res σ; forwarded := forwarded σ;
      journal := journal σ; inserted := inserted σ;
      detached := detached σ ++ [c] |}).

(** ** middleware/validation.middleware.ts *)

Definition askJijiSchema : z.ZodSchema :=
  z.object
    [(js "query",
      z.string (js "Query must be a string")
        [z.min 1 (js "Query cannot be empty");
         z.max 1000 (js "Query cannot exceed 1000 characters");
         z.trim;
         z.refine (fun val => (0 <? length val)%nat)
           (js "Query cannot be only whitespace")])].

Definition detailOf (issue : z.ZodIssue) : ValidationErrorDetail :=
  {| field := orElse (join (js ".") (z.issue_path issue)) (js "body");
     message := z.issue_message issue;
     code := z.issue_code issue |}.

Definition summaryOf (d : ValidationErrorDetail) : jsstr :=
  field d ++ js ": " ++ message d.

Definition validateBody (schema : z.ZodSchema) : Js unit :=
  r ← getReq;
  match schema (body r) with
  | z.Parsed parsed =>
      set_body parsed;;
      next
  | z.ThrowsZodError issues =>
      let details_ := List.map detailOf issues in
      let response :=
        {| success := false;
           data := None;
           error := Some (js "Validation failed: "
                          ++ join (js ", ") (List.map summaryOf details_));
           details := Some details_ |} in
      res_status_json 400 response
  | z.ThrowsOther e =>
      next_with (Some e)
  end.

(** ** services/resource-service.ts *)

(** Modelled from the spec: the lower-casing of the input, as
    [String.prototype.toLowerCase] acts on the letters of Basic Latin (the
    keywords the specification names are Basic Latin); the other code units
    are kept as they are. *)
Definition toLowerCase (s : jsstr) : jsstr :=
  List.map (fun c => if (65 <=? c) && (c <=? 90) then c + 32 else c) s.

(** Modelled from the spec: one keyword predicate with its canned
    explanation; the predicate holds when the lower-cased input contains one
    of the keywords. *)
Record KeywordRule := {
  keywords : list jsstr;
  explanation : jsstr
}.

(** Modelled from the spec: the canned strings of the answer generator.
    The specification names the first two predicates and leaves the
    later ones and every string open, so they are members of a table. *)
Record AnswerTable := {
  ragAnswer : jsstr;
  neuralAnswer : jsstr;
  laterRules : list KeywordRule;
  fallbackAnswer : jsstr
}.

(** The services, the middleware and the routes read the process
    environment and reach the hosted backend through module-level imports;
    here these are the variables of a section, together with the table of
    canned answers. *)
Section Service.

Context (env : ProcessEnv) (be : Backend) (answers : AnswerTable).

(** Modelled from the spec: the ordered list of keyword predicates, the rag
    predicate first. *)
Definition answerRules : list KeywordRule :=
  {| keywords := [js "rag"]; explanation := ragAnswer answers |}
  :: {| keywords := [js "neural network"; js "deep learning"];
        explanation := neuralAnswer answers |}
  :: laterRules answers.

Definition matches (lowerQuery : jsstr) (r : KeywordRule) : bool :=
  existsb (fun k => includes k lowerQuery) (keywords r).

(** Modelled from the spec: [generateMockAnswer] of
    services/resource-service.ts, a file that is not among the sources.  The
    input is lower-cased, the ordered keyword predicates are tried in turn,
    the first that holds gives its canned explanation, and the generic
    fallback is returned when none holds. *)
Definition generateMockAnswer (query : jsstr) : jsstr :=
  let lowerQuery := toLowerCase query in
  match List.find (matches lowerQuery) answerRules with
  | Some r => explanation r
  | None => fallbackAnswer answers
  end.

(** Modelled from the spec: the public shape of a row; the internal-only
    members are dropped. *)
Definition toResourceResponse (r : Resource) : ResourceResponse :=
  {| rr_id := r_id r; rr_title := r_title r; rr_type := r_type r;
     rr_url := r_file_url r |}.

(** Modelled from the spec: [searchResources] of
    services/resource-service.ts, a file that is not among the sources.  An
    unconfigured store gives the empty sequence; otherwise the store is
    queried (matching and the cap on the count are the store's work), its
    rows are mapped to the public shape, and any query error is logged and
    turned into the empty sequence. *)
Definition searchResources (query : jsstr) : Js (list ResourceResponse) :=
  if negb (isSupabaseConfigured env && bool_decide (is_Some (supabase env)))
  then mret []
  else
    tryCatch
      (r ← await (resources_search be query);
       match pg_error r with
       | Some _ =>
           logger error_level (js "Resource search failed");;
           mret []
       | None =>
           mret (List.map toResourceResponse (default [] (pg_data r)))
       end)
      (fun _ =>
         logger error_level (js "Resource search failed");;
         mret []).

(** ** services/query-service.ts *)

(** [supabaseAdmin.from("queries").insert(row).select().single()] *)
Definition insert_query (row : QueryInsert)
  : Js (PostgrestResponse SavedQuery) :=
  record_insert row;;
  await (queries_insert be row).

Definition saveQuery (userId : option jsstr) (queryText answerText : jsstr)
  (resourceIds : list jsstr) : Js (option SavedQuery) :=
  if negb (isSupabaseAdminConfigured env
           && bool_decide (is_Some (supabaseAdmin env)))
  then
    logger warn (js "Supabase admin not configured, skipping query save");;
    mret None
  else
    tryCatch
      (r ← insert_query
             {| user_id := userId;
                query_text := queryText;
                answer_text := answerText;
                resources_returned := resourceIds |};
       match pg_error r with
       | Some _ =>
           logger error_level (js "Failed to save query");;
           mret None
       | None =>
           logger info (js "Query saved successfully");;
           mret (pg_data r)
       end)
      (fun _ =>
         logger error_level (js "Unexpected error saving query");;
         mret None).

(** ** middleware/auth.middleware.ts *)

Definition mockUser : User :=
  {| user_ident := js "mock-user-id";
     user_email := js "mock@example.com";
     user_role := js "authenticated" |}.

Definition authenticate : Js unit :=
  tryCatch
    (r ← getReq;
     let authHeader := authorization r in
     let noBearer : Js unit :=
       if negb (isSupabaseConfigured env) then
         logger warn
           (js "Auth skipped: Supabase not configured, using mock user");;
         set_user mockUser;;
         next
       else
         res_status_json 401
           (failure (js "Authorization header required. Use: Bearer <token>"))
     in
     match authHeader with
     | None => noBearer
     | Some header =>
         if negb (startsWith (js "Bearer ") header) then noBearer
         else
           let token := substring 7 header in
           if negb (isSupabaseConfigured env
                    && bool_decide (is_Some (supabase env)))
           then
             logger warn (js "Auth in mock mode: Supabase not configured");;
             if negb (length (split 46 token) =? 3)%nat then
               res_status_json 401 (failure (js "Invalid token format"))
             else
               set_user mockUser;;
               next
           else
             resp ← await (auth_getUser be token);
             match ur_error resp, ur_user resp with
             | None, Some u =>
                 set_user
                   {| user_ident := su_id u;
                      user_email := orElse (default [] (su_email u)) [];
                      user_role := orElse (default [] (su_role u))
                                     (js "authenticated") |};;
                 logger debug (js "User authenticated successfully");;
                 next
             | _, _ =>
                 logger warn (js "Token validation failed");;
                 res_status_json 401 (failure (js "Invalid or expired token"))
             end
     end)
    (fun _ =>
       logger error_level (js "Authentication error");;
       res_status_json 500
         (failure (js "Authentication service unavailable"))).

(** ** controllers/ask-jiji.controller.ts *)

(** [const { query } = req.body] followed by the first use of [query] as a
    string: anything but an object with a string [query] ends in a
    [TypeError], whose engine-specific text is not told apart. *)
Definition queryOf (b : option JSON) : Js jsstr :=
  match b with
  | Some (JObject o) =>
      match o !! js "query" with
      | Some (JString q) => mret q
      | _ => await (Thrown (Error (js "TypeError")))
      end
  | _ => await (Thrown (Error (js "TypeError")))
  end.

(** [req.user?.id || null] *)
Definition userIdOf (u : option User) : option jsstr :=
  match u with
  | Some v => match user_ident v with [] => None | i => Some i end
  | None => None
  end.

Definition handleAskJiji : Js unit :=
  tryCatch
    (r ← getReq;
     query ← queryOf (body r);
     let userId := userIdOf (user r) in
     logger info (js "Processing ask-jiji request");;
     let answer := generateMockAnswer query in
     resources ← searchResources query;
     let resourceIds := List.map rr_id resources in
     detach {| sc_userId := userId; sc_queryText := query;
               sc_answerText := answer; sc_resourceIds := resourceIds |};;
     logger info (js "Ask-jiji request completed");;
     let response :=
       {| success := true;
          data := Some (AskJijiData answer resources);
          error := None;
          details := None |} in
     res_status_json 200 response)
    (fun err => next_with (Some err)).

(** The background task of the controller:
    [saveQuery(...).catch((err) => logger.error(...))]. *)
Definition background (c : SaveQueryCall) : Js unit :=
  tryCatch
    (saveQuery (sc_userId c) (sc_queryText c) (sc_answerText c)
       (sc_resourceIds c);;
     mret tt)
    (fun _ => logger error_level (js "Background query save failed")).

(** Letting the detached calls of an exchange run to their end. *)
Definition settle (σ : Exchange) : Exchange :=
  fold_left (fun τ c => snd (background c τ)) (detached σ)
    {| req := req σ; res := res σ; forwarded := forwarded σ;
       journal := journal σ; inserted := inserted σ; detached := [] |}.

(** ** middleware/error-handler.middleware.ts *)

Definition notFoundHandler : Js unit :=
  r ← getReq;
  let response :=
    failure (js "Route " ++ method r ++ js " " ++ path r ++ js " not found") in
  res_status_json 404 response.

Definition errorHandler (err : JsError) : Js unit :=
  logger error_level (js "Error occurred");;
  let statusCode :=
    match err with
    | AppError _ c => c
    | Error _ => 500%Z
    end in
  let response :=
    failure (if isProduction env && (statusCode =? 500)%Z
             then js "Internal server error"
             else message_of err) in
  res_status_json statusCode response.

(** ** server.ts and routes/ask-jiji.routes.ts *)

(** [app.get("/health", ...)]: [res.json] answers with the default status. *)
Definition health : Js unit :=
  res_status_json 200
    {| success := true;
       data := Some (HealthData (js "healthy") (clock_toISOString be)
                       (orElse (default [] (NODE_ENV env))
                          (js "development")));
       error := None;
       details := None |}.

(** The handlers of a route in turn: [next()] hands over to the following
    handler, [next(err)] and a throw go to the terminal [errorHandler], a
    handler that does neither ends the chain; falling off the end reaches
    [notFoundHandler].  What [errorHandler] itself throws goes to the final
    handler of the framework, which is not of this code: the exchange is
    returned as [errorHandler] left it. *)
Fixpoint dispatch (handlers : list (Js unit)) (σ : Exchange) : Exchange :=
  match handlers with
  | [] => snd (notFoundHandler σ)
  | h :: rest =>
      match h σ with
      | (Thrown e, σ') => snd (errorHandler e σ')
      | (Returned _, σ') =>
          match forwarded σ' with
          | Some None =>
              dispatch rest
                {| req := req σ'; res := res σ'; forwarded := None;
                   journal := journal σ'; inserted := inserted σ';
                   detached := detached σ' |}
          | Some (Some e) => snd (errorHandler e σ')
          | None => σ'
          end
      end
  end.

(** [router.post("/", authenticate, validateBody(askJijiSchema),
    handleAskJiji)], mounted at [/ask-jiji]. *)
Definition askJijiRoute : list (Js unit) :=
  [authenticate; validateBody askJijiSchema; handleAskJiji].

Definition postAskJiji (r : Request) : Exchange :=
  dispatch askJijiRoute (incoming r).

End Service.

(** ** services/query-service.ts (history) and services/storage-service.ts

    The calls these services make on the client SDK, beside those of
    [Backend]: the history query, the listing of a bucket folder (with the
    optional [search] of its options), the public URL of a path (built
    locally by the SDK, it cannot fail) and the signing of a URL. *)

(** An entry of a storage listing: [file.name], [file.metadata?.size] and
    [file.created_at]. *)
Record FileObject := {
  fo_name : jsstr;
  fo_size : option Z;
  fo_created_at : option jsstr
}.

Record StorageBackend := {
  queries_select :
    jsstr -> Z -> Completion (PostgrestResponse (list SavedQuery));
  storage_list :
    jsstr -> jsstr -> option jsstr ->
    Completion (PostgrestResponse (list FileObject));
  storage_getPublicUrl : jsstr -> jsstr -> jsstr;
  storage_createSignedUrl :
    jsstr -> jsstr -> Z -> Completion (PostgrestResponse jsstr)
}.

Inductive StorageFileType := file_ppt | file_video | file_other.

Record StorageFile := {
  sf_name : jsstr;
  sf_path : jsstr;
  sf_url : jsstr;
  sf_size : Z;
  sf_type : StorageFileType;
  sf_createdAt : jsstr
}.

Definition STORAGE_BUCKET : jsstr := js "learning-materials".

(** [xs.includes(x)] on an array of strings *)
Definition array_includes (xs : list jsstr) (x : jsstr) : bool :=
  existsb (eqb x) xs.

(** [filename.split(".").pop()?.toLowerCase()] and the two lists of
    extensions; lower-casing as in [toLowerCase] above. *)
Definition getFileType (filename : jsstr) : StorageFileType :=
  let ext := toLowerCase <$> last (split 46 filename) in
  if truthy ext
     && array_includes [js "ppt"; js "pptx"; js "odp"] (default [] ext)
  then file_ppt
  else if truthy ext
          && array_includes
               [js "mp4"; js "webm"; js "mov"; js "avi"; js "mkv"]
               (default [] ext)
  then file_video
  else file_other.

(** [xs.map(f)] for an [f] that runs handler code *)
Fixpoint mapJs {A B} (f : A -> Js B) (xs : list A) : Js (list B) :=
  match xs with
  | [] => mret []
  | x :: rest =>
      y ← f x;
      ys ← mapJs f rest;
      mret (y :: ys)
  end.

Section Storage.

Context (env : ProcessEnv) (be : Backend) (st : StorageBackend).

(** [getUserQueries(userId, limit = 20)] *)
Definition getUserQueries (userId : jsstr) (limit : option Z)
  : Js (list SavedQuery) :=
  if negb (isSupabaseConfigured env && bool_decide (is_Some (supabase env)))
  then
    logger warn (js "Supabase not configured, returning empty history");;
    mret []
  else
    tryCatch
      (r ← await (queries_select st userId (default 20%Z limit));
       match pg_error r with
       | Some _ =>
           logger error_level (js "Failed to fetch user queries");;
           mret []
       | None => mret (default [] (pg_data r))
       end)
      (fun _ =>
         logger error_level (js "Unexpected error fetching queries");;
         mret []).

Definition getPublicUrl (path_ : jsstr) : Js jsstr :=
  if negb (isSupabaseConfigured env && bool_decide (is_Some (supabase env)))
  then
    logger warn (js "Supabase not configured, returning placeholder URL");;
    mret (js "https://placeholder.storage/" ++ path_)
  else mret (storage_getPublicUrl st STORAGE_BUCKET path_).

(** The four sample files of mock mode; every [new Date().toISOString()] of
    a call reads the one clock of the backend. *)
Definition getSampleFiles : list StorageFile :=
  [ {| sf_name := js "rag-intro.pptx";
       sf_path := js "presentations/rag-intro.pptx";
       sf_url := js "https://placeholder.storage/presentations/rag-intro.pptx";
       sf_size := 2048000; sf_type := file_ppt;
       sf_createdAt := clock_toISOString be |};
    {| sf_name := js "ml-fundamentals.pptx";
       sf_path := js "presentations/ml-fundamentals.pptx";
       sf_url :=
         js "https://placeholder.storage/presentations/ml-fundamentals.pptx";
       sf_size := 3072000; sf_type := file_ppt;
       sf_createdAt := clock_toISOString be |};
    {| sf_name := js "rag-tutorial.mp4";
       sf_path := js "videos/rag-tutorial.mp4";
       sf_url := js "https://placeholder.storage/videos/rag-tutorial.mp4";
       sf_size := 50000000; sf_type := file_video;
       sf_createdAt := clock_toISOString be |};
    {| sf_name := js "neural-networks.mp4";
       sf_path := js "videos/neural-networks.mp4";
       sf_url := js "https://placeholder.storage/videos/neural-networks.mp4";
       sf_size := 75000000; sf_type := file_video;
       sf_createdAt := clock_toISOString be |} ].

(** The callback of [data.filter(...).map(...)] in [listStorageFiles]. *)
Definition toStorageFile (folder : option jsstr) (file : FileObject)
  : Js StorageFile :=
  let path_ :=
    if truthy folder then default [] folder ++ js "/" ++ fo_name file
    else fo_name file in
  url ← getPublicUrl path_;
  mret {| sf_name := fo_name file;
          sf_path := path_;
          sf_url := url;
          sf_size := default 0%Z (fo_size file);
          sf_type := getFileType (fo_name file);
          sf_createdAt :=
            orElse (default [] (fo_created_at file)) (clock_toISOString be) |}.

Definition listStorageFiles (folder : option jsstr) : Js (list StorageFile) :=
  if negb (isSupabaseConfigured env && bool_decide (is_Some (supabase env)))
  then
    logger warn (js "Supabase not configured, returning sample files");;
    mret getSampleFiles
  else
    tryCatch
      (r ← await (storage_list st STORAGE_BUCKET
                    (orElse (default [] folder) []) None);
       match pg_error r with
       | Some _ =>
           logger error_level (js "Error listing storage files");;
           mret []
       | None =>
           match pg_data r with
           | None | Some [] => mret []
           | Some data_ =>
               mapJs (toStorageFile folder)
                 (List.filter
                    (fun file =>
                       negb (eqb (fo_name file)
                               (js ".emptyFolderPlaceholder")))
                    data_)
           end
       end)
      (fun _ =>
         logger error_level (js "Unexpected error listing files");;
         mret []).

Definition getFilesByType (type_ : ResourceType) : Js (list StorageFile) :=
  let folder :=
    match type_ with
    | ppt => js "presentations"
    | video => js "videos"
    end in
  listStorageFiles (Some folder).

(** [fileExists]: the value of [!error && data && data.length > 0], where
    [None] is the [null] it yields for a missing [data]. *)
Definition fileExists (path_ : jsstr) : Js (option bool) :=
  if negb (isSupabaseConfigured env && bool_decide (is_Some (supabase env)))
  then mret (Some false)
  else
    tryCatch
      (r ← await (storage_list st STORAGE_BUCKET
                    (join (js "/") (removelast (split 47 path_)))
                    (last (split 47 path_)));
       mret (match pg_error r with
             | Some _ => Some false
             | None =>
                 match pg_data r with
                 | None => None
                 | Some data_ => Some (0 <? length data_)%nat
                 end
             end))
      (fun _ => mret (Some false)).

(** [getSignedUrl(path, expiresInSeconds = 3600)]; reading [data.signedUrl]
    of a missing [data] is a [TypeError], caught like any other. *)
Definition getSignedUrl (path_ : jsstr) (expiresInSeconds : option Z)
  : Js (option jsstr) :=
  if negb (isSupabaseConfigured env && bool_decide (is_Some (supabase env)))
  then
    logger warn (js "Supabase not configured, cannot generate signed URL");;
    mret None
  else
    tryCatch
      (r ← await (storage_createSignedUrl st STORAGE_BUCKET path_
                    (default 3600%Z expiresInSeconds));
       match pg_error r with
       | Some _ =>
           logger error_level (js "Error creating signed URL");;
           mret None
       | None =>
           match pg_data r with
           | Some signedUrl => mret (Some signedUrl)
           | None => await (Thrown (Error (js "TypeError")))
           end
       end)
      (fun _ =>
         logger error_level (js "Unexpected error creating signed URL");;
         mret None).

End Storage.

(** ** Vocabulary of the statements *)

(** An issue on the [query] member. *)
Definition queryIssue (c m : jsstr) : z.ZodIssue :=
  {| z.issue_code := c; z.issue_path := [js "query"]; z.issue_message := m |}.

(** The issues [askJijiSchema] raises on a string [query], in the order of
    its checks: the two length checks see the string as sent, the
    refinement sees it trimmed. *)
Definition stringIssues (s : jsstr) : list z.ZodIssue :=
  (if (1 <=? length s)%nat then []
   else [queryIssue (js "too_small") (js "Query cannot be empty")])
  ++ (if (length s <=? 1000)%nat then []
      else [queryIssue (js "too_big")
              (js "Query cannot exceed 1000 characters")])
  ++ (if whitespaceOnly s
      then [queryIssue (js "custom") (js "Query cannot be only whitespace")]
      else []).

(** The body of a 400: the details and their summary. *)
Definition validationResponse (ds : list ValidationErrorDetail) : ApiResponse :=
  {| success := false;
     data := None;
     error := Some (js "Validation failed: "
                    ++ join (js ", ") (List.map summaryOf ds));
     details := Some ds |}.

(** The body of a 200 of the controller. *)
Definition askJijiResponse (answer : jsstr) (rs : list ResourceResponse)
  : ApiResponse :=
  {| success := true; data := Some (AskJijiData answer rs); error := None;
     details := None |}.

(** A POST with the given Authorization header and body. *)
Definition postRequest (h : option jsstr) (b : option JSON) : Request :=
  {| method := js "POST"; path := js "/"; authorization := h; body := b;
     user := None |}.

(** [{"query": s}] *)
Definition queryBody (s : jsstr) : option JSON :=
  Some (JObject {[ js "query" := JString s ]}).

(** Sample surroundings: nothing configured (mock mode); everything
    configured, in production; a backend that is down; a backend that
    answers; and a table of canned answers. *)
Definition mockEnv : ProcessEnv :=
  {| SUPABASE_URL := None; SUPABASE_ANON_KEY := None;
     SUPABASE_SERVICE_ROLE_KEY := None; NODE_ENV := None |}.

Definition liveEnv : ProcessEnv :=
  {| SUPABASE_URL := Some (js "https://project.supabase.co");
     SUPABASE_ANON_KEY := Some (js "anon-key");
     SUPABASE_SERVICE_ROLE_KEY := Some (js "service-role-key");
     NODE_ENV := Some (js "production") |}.

Definition downBackend : Backend :=
  {| auth_getUser := fun _ => Thrown (Error (js "fetch failed"));
     queries_insert := fun _ => Thrown (Error (js "fetch failed"));
     resources_search := fun _ => Thrown (Error (js "fetch failed"));
     clock_toISOString := js "2026-02-08T00:00:00.000Z" |}.

Definition sampleResource : Resource :=
  {| r_id := js "r1"; r_title := js "Introduction to RAG";
     r_description := js "Learn the basics of RAG"; r_type := ppt;
     r_file_url := js "https://example.com/rag.pptx";
     r_tags := [js "rag"; js "ai"; js "llm"];
     r_created_at := js "2026-02-08T00:00:00.000Z" |}.

Definition upBackend : Backend :=
  {| auth_getUser := fun _ =>
       Returned {| ur_user := Some {| su_id := js "u1";
                                      su_email := Some (js "a@b.c");
                                      su_role := None |};
                   ur_error := None |};
     queries_insert := fun row =>
       Returned {| pg_data := Some {| sq_id := js "q1";
                                      sq_user_id := user_id row;
                                      sq_query_text := query_text row;
                                      sq_answer_text := Some (answer_text row);
                                      sq_resources_returned :=
                                        resources_returned row;
                                      sq_created_at :=
                                        js "2026-02-08T00:00:00.000Z" |};
                   pg_error := None |};
     resources_search := fun _ =>
       Returned {| pg_data := Some [sampleResource]; pg_error := None |};
     clock_toISOString := js "2026-02-08T00:00:00.000Z" |}.

Definition sampleAnswers : AnswerTable :=
  {| ragAnswer :=
       js "Retrieval-Augmented Generation (RAG) combines search with LLMs...";
     neuralAnswer := js "Neural networks are layers of weighted units.";
     laterRules := [];
     fallbackAnswer := js "I can help you learn about that topic." |}.

(** The Authorization header is absent or does not start with [Bearer ]. *)
Definition lacksBearer (h : option jsstr) : Prop :=
  h = None \/ exists a, h = Some a /\ startsWith (js "Bearer ") a = false.

(** The headers mock mode lets through: none, one that is not a bearer
    header, or a bearer token of three dot-separated segments. *)
Definition mockModeAdmits (h : option jsstr) : Prop :=
  h = None \/
  exists a, h = Some a /\
    (startsWith (js "Bearer ") a = false \/
     length (split 46 (substring 7 a)) = 3%nat).

(** Three code units that read rag in any mix of cases. *)
Definition spellsRag (c1 c2 c3 : N) : Prop :=
  (c1 = 82 \/ c1 = 114) /\ (c2 = 65 \/ c2 = 97) /\ (c3 = 71 \/ c3 = 103).

(** Two exchanges that differ in the log at most. *)
Definition sameButJournal (σ σ' : Exchange) : Prop :=
  req σ' = req σ /\ res σ' = res σ /\ forwarded σ' = forwarded σ /\
  inserted σ' = inserted σ /\ detached σ' = detached σ.

(** The search cannot give rows: the store is unconfigured, or the query
    throws, or it returns an error. *)
Definition searchFails (env : ProcessEnv) (be : Backend) (q : jsstr) : Prop :=
  isSupabaseConfigured env = false \/
  (exists e, resources_search be q = Thrown e) \/
  (exists r e, resources_search be q = Returned r /\ pg_error r = Some e).

(** The insert of a row fails: the call throws, or it returns an error. *)
Definition insertFails (be : Backend) (row : QueryInsert) : Prop :=
  (exists e, queries_insert be row = Thrown e) \/
  (exists r e, queries_insert be row = Returned r /\ pg_error r = Some e).

(** The row a [saveQuery] call inserts. *)
Definition rowOf (c : SaveQueryCall) : QueryInsert :=
  {| user_id := sc_userId c; query_text := sc_queryText c;
     answer_text := sc_answerText c; resources_returned := sc_resourceIds c |}.

(** The places where the service builds a response. *)
Inductive Handler :=
| Authenticate
| ValidateBody (schema : z.ZodSchema)
| HandleAskJiji
| NotFoundHandler
| ErrorHandler (err : JsError)
| Health.

Definition handlerCode (env : ProcessEnv) (be : Backend) (t : AnswerTable)
  (h : Handler) : Js unit :=
  match h with
  | Authenticate => authenticate env be
  | ValidateBody schema => validateBody schema
  | HandleAskJiji => handleAskJiji env be t
  | NotFoundHandler => notFoundHandler
  | ErrorHandler err => errorHandler env err
  | Health => health env be
  end.

(** Handler [h], entered on an exchange with no response yet, sends
    [sent]. *)
Definition constructs (env : ProcessEnv) (be : Backend) (t : AnswerTable)
  (h : Handler) (σ : Exchange) (sent : Z * ApiResponse) : Prop :=
  res σ = None /\ res (snd (handlerCode env be t h σ)) = Some sent.

(** The shape of an [ApiResponse] by status: an error status goes with
    [success: false], a non-empty [error] and no [data]; 200 goes with
    [success: true] and a [data]. *)
Definition ApiResponse_invariant (sent : Z * ApiResponse) : Prop :=
  (sent.1 ∈ [400; 401; 404; 500]%Z ->
     success sent.2 = false /\
     (exists e, error sent.2 = Some e /\ e <> []) /\
     data sent.2 = None) /\
  (sent.1 = 200%Z -> success sent.2 = true /\ is_Some (data sent.2)).

Definition sendsKnownStatus (sent : Z * ApiResponse) : Prop :=
  sent.1 ∈ [200; 400; 401; 404; 500]%Z.

(** ** Vocabulary of the further properties *)

(** The auth service answers the token with an error or with no user. *)
Definition tokenRefused (be : Backend) (token : jsstr) : Prop :=
  exists resp, auth_getUser be token = Returned resp /\
    (is_Some (ur_error resp) \/ ur_user resp = None).

(** [req] after [req.user = u]. *)
Definition withUser (r : Request) (u : User) : Request :=
  {| method := method r; path := path r; authorization := authorization r;
     body := body r; user := Some u |}.

(** The two ways [authenticate] can end: it answers 401 or 500 and leaves
    the request alone ... *)
Definition authRejects (σ σ' : Exchange) : Prop :=
  exists c m, res σ' = Some (c, failure m) /\ (c = 401 \/ c = 500)%Z /\
    m <> [] /\ forwarded σ' = forwarded σ /\ req σ' = req σ.

(** ... or it attaches a user and calls [next()]. *)
Definition authAdmits (σ σ' : Exchange) : Prop :=
  res σ' = res σ /\ forwarded σ' = Some None /\
  exists u, req σ' = withUser (req σ) u.

(** The string does not start with white space. *)
Definition headKept (s : jsstr) : Prop :=
  match s with
  | [] => True
  | c :: _ => isWhiteSpace c = false
  end.

(** The three ways a request to the route can end. *)
Inductive RouteOutcome (env : ProcessEnv) (be : Backend) (t : AnswerTable)
  (r : Request) (σ : Exchange) : Prop :=
| RefusedByAuth (c : Z) (m : jsstr)
    (Hres : res σ = Some (c, failure m))
    (Hc : (c = 401 \/ c = 500)%Z)
    (Hreq : req σ = r)
    (Hdet : detached σ = [])
| RefusedByValidation (b : ApiResponse) (u : User)
    (Hres : res σ = Some (400%Z, b))
    (Hreq : req σ = withUser r u)
    (Hdet : detached σ = [])
| Answered (o : gmap jsstr JSON) (s : jsstr) (u : User)
    (rs : list ResourceResponse)
    (Hbody : body r = Some (JObject o))
    (Hquery : o !! js "query" = Some (JString s))
    (Hlen : (1 <= length s <= 1000)%nat)
    (Hws : whitespaceOnly s = false)
    (Hres : res σ =
       Some (200%Z, askJijiResponse (generateMockAnswer t (trim s)) rs))
    (Huser : user (req σ) = Some u)
    (Hnew : body (req σ) = Some (JObject {[ js "query" := JString (trim s) ]}))
    (Hdet : detached σ =
       [{| sc_userId := userIdOf (Some u); sc_queryText := trim s;
           sc_answerText := generateMockAnswer t (trim s);
           sc_resourceIds := List.map rr_id rs |}]).

(** Two exchanges that differ in the log and the rows sent at most. *)
Definition sameButLogAndRows (σ σ' : Exchange) : Prop :=
  req σ' = req σ /\ res σ' = res σ /\ forwarded σ' = forwarded σ /\
  detached σ' = detached σ.

(** The history query throws or returns an error. *)
Definition selectFails (st : StorageBackend) (userId : jsstr) (limit : Z)
  : Prop :=
  (exists e, queries_select st userId limit = Thrown e) \/
  (exists r e, queries_select st userId limit = Returned r /\
     pg_error r = Some e).

(** Every code unit is Basic Latin, where [toLowerCase] above is the
    JavaScript one. *)
Definition basicLatin (s : jsstr) : Prop := Forall (fun c => c < 128) s.

(** The two extension lists of [getFileType]. *)
Definition pptExtensions : list jsstr := [js "ppt"; js "pptx"; js "odp"].

Definition videoExtensions : list jsstr :=
  [js "mp4"; js "webm"; js "mov"; js "avi"; js "mkv"].

(** The entry a storage folder holds when it is empty. *)
Definition isPlaceholder (file : FileObject) : bool :=
  eqb (fo_name file) (js ".emptyFolderPlaceholder").

(** What [listStorageFiles] makes of one entry when the store is
    configured. *)
Definition storageFileOf (be : Backend) (st : StorageBackend)
  (folder : option jsstr) (file : FileObject) : StorageFile :=
  let path_ :=
    if truthy folder then default [] folder ++ js "/" ++ fo_name file
    else fo_name file in
  {| sf_name := fo_name file;
     sf_path := path_;
     sf_url := storage_getPublicUrl st STORAGE_BUCKET path_;
     sf_size := default 0%Z (fo_size file);
     sf_type := getFileType (fo_name file);
     sf_createdAt :=
       orElse (default [] (fo_created_at file)) (clock_toISOString be) |}.

(** The listing of a folder throws or returns an error. *)
Definition listFails (st : StorageBackend) (dir : jsstr)
  (search : option jsstr) : Prop :=
  (exists e, storage_list st STORAGE_BUCKET dir search = Thrown e) \/
  (exists r e, storage_list st STORAGE_BUCKET dir search = Returned r /\
     pg_error r = Some e).

(** The folder [getFilesByType] lists for a type. *)
Definition folderOf (ty : ResourceType) : jsstr :=
  match ty with
  | ppt => js "presentations"
  | video => js "videos"
  end.

(** Signing throws, returns an error, or returns neither error nor
    data. *)
Definition signFails (st : StorageBackend) (p : jsstr) (expires : Z) : Prop :=
  (exists e, storage_createSignedUrl st STORAGE_BUCKET p expires = Thrown e) \/
  (exists r e, storage_createSignedUrl st STORAGE_BUCKET p expires
                 = Returned r /\ pg_error r = Some e) \/
  (exists r, storage_createSignedUrl st STORAGE_BUCKET p expires
               = Returned r /\ pg_data r = None).

(** More sample surroundings: an auth service that refuses every token, a
    deployment with the service-role key only, and a storage backend. *)
Definition refusingBackend : Backend :=
  {| auth_getUser := fun _ =>
       Returned {| ur_user := None; ur_error := Some (js "invalid JWT") |};
     queries_insert := queries_insert upBackend;
     resources_search := resources_search upBackend;
     clock_toISOString := clock_toISOString upBackend |}.

Definition adminOnlyEnv : ProcessEnv :=
  {| SUPABASE_URL := Some (js "https://project.supabase.co");
     SUPABASE_ANON_KEY := None;
     SUPABASE_SERVICE_ROLE_KEY := Some (js "service-role-key");
     NODE_ENV := None |}.

Definition sampleStorage : StorageBackend :=
  {| queries_select := fun _ _ =>
       Returned {| pg_data := Some []; pg_error := None |};
     storage_list := fun _ _ _ =>
       Returned
         {| pg_data :=
              Some [ {| fo_name := js ".emptyFolderPlaceholder";
                        fo_size := None; fo_created_at := None |};
                     {| fo_name := js "rag-intro.pptx";
                        fo_size := Some 2048000%Z;
                        fo_created_at := Some (js "2026-02-08T00:00:00.000Z") |} ];
            pg_error := None |};
     storage_getPublicUrl := fun bucket p =>
       js "https://project.supabase.co/storage/v1/object/public/"
       ++ bucket ++ js "/" ++ p;
     storage_createSignedUrl := fun _ p _ =>
       Returned {| pg_data := Some (js "https://signed/" ++ p);
                   pg_error := None |} |}.

(** ** Tactics for handler code

    [js_run] unfolds the monad and the primitives of an exchange and
    computes the projections of the resulting state; [known_status] decides
    membership of a status in a literal list. *)

Ltac js_simpl :=
  cbn [fst snd req res forwarded journal inserted detached
       method path authorization body user].

Ltac literal_status :=
  change (validStatus 200) with true;
  change (validStatus 400) with true;
  change (validStatus 401) with true;
  change (validStatus 404) with true;
  change (validStatus 500) with true.

Ltac js_run :=
  unfold validateBody, set_body, set_user, next;
  unfold mbind, Js_bind, mret, Js_ret, getReq, set_req, next_with,
    res_status_json, logger, await, tryCatch, detach, record_insert;
  literal_status; js_simpl.

Ltac known_status := apply list_elem_of_In; simpl; tauto.

(** * Properties *)

(** ** Strings *)

Lemma trimStart_nil_iff (s : jsstr) :
  trimStart s = [] <-> whitespaceOnly s = true.
Proof.
  induction s as [|c s IH]; simpl; [tauto|].
  destruct (isWhiteSpace c); simpl; [exact IH|].
  split; discriminate.
Qed.

Lemma whitespaceOnly_rev (s : jsstr) :
  whitespaceOnly (rev s) = whitespaceOnly s.
Proof.
  unfold whitespaceOnly. induction s as [|c s IH]; simpl; [reflexivity|].
  rewrite forallb_app, IH. simpl. rewrite andb_true_r. apply andb_comm.
Qed.

Lemma trimStart_whitespaceOnly (s : jsstr) :
  whitespaceOnly (trimStart s) = whitespaceOnly s.
Proof.
  induction s as [|c s IH]; simpl; [reflexivity|].
  destruct (isWhiteSpace c) eqn:E; simpl; [exact IH|].
  rewrite E. reflexivity.
Qed.

(** [trim] leaves nothing exactly when the string is white space only. *)
Lemma trim_nil_iff (s : jsstr) : trim s = [] <-> whitespaceOnly s = true.
Proof.
  unfold trim, trimEnd. split.
  - intros H. apply (f_equal (@rev N)) in H. rewrite rev_involutive in H.
    simpl in H. apply trimStart_nil_iff in H.
    rewrite whitespaceOnly_rev, trimStart_whitespaceOnly in H. exact H.
  - intros H.
    assert (E : trimStart (rev (trimStart s)) = []).
    { apply trimStart_nil_iff.
      rewrite whitespaceOnly_rev, trimStart_whitespaceOnly. exact H. }
    rewrite E. reflexivity.
Qed.

Lemma trim_length_pos (s : jsstr) :
  (0 <? length (trim s))%nat = negb (whitespaceOnly s).
Proof.
  destruct (whitespaceOnly s) eqn:E; simpl.
  - apply trim_nil_iff in E. rewrite E. reflexivity.
  - destruct (trim s) eqn:T; [|reflexivity].
    apply trim_nil_iff in T. congruence.
Qed.

(** [split] gives one segment more than there are separators. *)
Lemma split_length (sep : N) (s : jsstr) :
  length (split sep s) = S (length (filter (fun c => c = sep) s)).
Proof.
  induction s as [|c s IH]; simpl; [reflexivity|].
  rewrite filter_cons. destruct (N.eqb_spec c sep) as [->|Hne].
  - rewrite decide_True by reflexivity. simpl. rewrite IH. reflexivity.
  - rewrite decide_False by exact Hne.
    destruct (split sep s) eqn:E; simpl in *; [discriminate|exact IH].
Qed.

(** ** The schema *)

Lemma aborted_app (a b : list (z.ZodIssue * bool)) :
  z.aborted (a ++ b) = z.aborted a || z.aborted b.
Proof. unfold z.aborted. apply existsb_app. Qed.

Lemma aborted_drop (n : nat) (a : list (z.ZodIssue * bool)) :
  z.aborted a = false -> z.aborted (drop n a) = false.
Proof.
  revert n. induction a as [|i a IH]; intros [|n] H; simpl in *; try done.
  apply orb_false_iff in H as [_ H]. apply IH, H.
Qed.

Lemma runCheck_continues (ch : z.StringCheck) (p : z.ParsePayload) :
  z.aborted (z.issues p) = false ->
  z.aborted (z.issues (z.runCheck false ch p)) = false.
Proof.
  intros H. destruct ch as [n m|n m| |fn m]; simpl.
  - destruct (z.lengthOf (z.value p)); [|done].
    destruct (n <=? n0)%nat; [done|]. simpl. rewrite aborted_app, H. done.
  - destruct (z.lengthOf (z.value p)); [|done].
    destruct (n0 <=? n)%nat; [done|]. simpl. rewrite aborted_app, H. done.
  - destruct (z.value p) as [[]|]; done.
  - destruct (z.value p) as [[| | |s| |]|]; try done.
    destruct (fn s); [done|]. simpl. rewrite aborted_app, H. done.
Qed.

(** On a value of the right type no check aborts, and the checks are a plain
    left-to-right pass. *)
Lemma runChecks_continues (chs : list z.StringCheck) (p : z.ParsePayload) :
  z.aborted (z.issues p) = false ->
  z.runChecks false chs p = fold_left (fun q ch => z.runCheck false ch q) chs p.
Proof.
  revert p. induction chs as [|ch chs IH]; intros p H; simpl; [done|].
  rewrite aborted_drop by (apply runCheck_continues, H).
  apply IH, runCheck_continues, H.
Qed.

(** What the schema does with an object whose [query] is a string. *)
Lemma askJijiSchema_string (o : gmap jsstr JSON) (s : jsstr) :
  o !! js "query" = Some (JString s) ->
  askJijiSchema (Some (JObject o)) =
    match stringIssues s with
    | [] => z.Parsed (JObject {[ js "query" := JString (trim s) ]})
    | iss => z.ThrowsZodError iss
    end.
Proof.
  intros H. unfold askJijiSchema, z.object, z.runShape. rewrite H.
  unfold z.runString, z.string.
  cbn [z.checks z.invalid_type_error z.issues z.aborted existsb].
  rewrite runChecks_continues by done.
  unfold stringIssues. cbn [fold_left].
  cbn [z.runCheck z.lengthOf z.value].
  destruct (1 <=? length s)%nat eqn:E1;
    cbn [z.runCheck z.lengthOf z.value z.push z.issues app];
    destruct (length s <=? 1000)%nat eqn:E2;
    cbn [z.runCheck z.lengthOf z.value z.push z.issues app];
    rewrite trim_length_pos; destruct (whitespaceOnly s) eqn:E3;
    cbn [negb z.push z.issues z.value app]; reflexivity.
Qed.

(** What it does with an object that has no [query]. *)
Lemma askJijiSchema_missing (o : gmap jsstr JSON) :
  o !! js "query" = None ->
  askJijiSchema (Some (JObject o)) =
    z.ThrowsZodError
      [queryIssue (js "invalid_type") (js "Query must be a string")].
Proof.
  intros H. unfold askJijiSchema, z.object, z.runShape. rewrite H.
  reflexivity.
Qed.

Lemma stringIssues_fields (s : jsstr) :
  Forall (fun i => field (detailOf i) = js "query") (stringIssues s).
Proof.
  unfold stringIssues.
  repeat apply Forall_app_2;
    repeat match goal with |- context [if ?b then _ else _] => destruct b end;
    repeat constructor.
Qed.

Lemma stringIssues_nil_iff (s : jsstr) :
  stringIssues s = [] <->
  (1 <= length s <= 1000)%nat /\ whitespaceOnly s = false.
Proof.
  unfold stringIssues.
  destruct (Nat.leb_spec 1 (length s)), (Nat.leb_spec (length s) 1000),
    (whitespaceOnly s); simpl; split; try done; try lia;
    intros [? ?]; try done; lia.
Qed.

Lemma stringIssues_bad (s : jsstr) :
  s = [] \/ whitespaceOnly s = true \/ (1000 < length s)%nat ->
  stringIssues s <> [].
Proof.
  intros H E. apply stringIssues_nil_iff in E as [[? ?] ?].
  destruct H as [->|[H|H]]; [simpl in *; lia | congruence | lia].
Qed.

(** ** Validation *)

(** C1, as amended.  For every JSON object body in which [query] is missing,
    empty, white space only or longer than 1000 code units, the validation
    middleware answers 400 with the list of details and the summary built
    from it, the list holds an entry whose field is [query], and [next] is
    not called. *)
Theorem validateBody_rejects_bad_query
  (σ : Exchange) (o : gmap jsstr JSON) :
  body (req σ) = Some (JObject o) ->
  forwarded σ = None ->
  (o !! js "query" = None \/
   exists s, o !! js "query" = Some (JString s) /\
     (s = [] \/ whitespaceOnly s = true \/ (1000 < length s)%nat)) ->
  let σ' := snd (validateBody askJijiSchema σ) in
  exists ds,
    res σ' = Some (400%Z, validationResponse ds) /\
    (exists d, d ∈ ds /\ field d = js "query") /\
    forwarded σ' = None.
Proof.
  intros Hb Hf [Hq | (s & Hq & Hbad)]; cbv zeta; js_run; rewrite Hb.
  - rewrite (askJijiSchema_missing o Hq). js_simpl.
    eexists. split; [reflexivity|]. split; [|done].
    eexists. split; [apply list_elem_of_here | reflexivity].
  - rewrite (askJijiSchema_string o s Hq).
    pose proof (stringIssues_bad s Hbad) as Hne.
    pose proof (stringIssues_fields s) as Hall.
    destruct (stringIssues s) as [|i iss]; [done|]. js_simpl.
    eexists. split; [reflexivity|]. split; [|done].
    exists (detailOf i). split; [apply list_elem_of_here|].
    apply Forall_cons in Hall as [Hi _]. exact Hi.
Qed.

Lemma validateBody_rejects_bad_query_witness :
  exists ds,
    res (snd (validateBody askJijiSchema
                (incoming (postRequest None (Some (JObject ∅))))))
    = Some (400%Z, validationResponse ds) /\
    (exists d, d ∈ ds /\ field d = js "query") /\
    forwarded (snd (validateBody askJijiSchema
                (incoming (postRequest None (Some (JObject ∅)))))) = None.
Proof.
  apply (validateBody_rejects_bad_query
           (incoming (postRequest None (Some (JObject ∅)))) ∅);
    [reflexivity | reflexivity | left; reflexivity].
Defined.

(** C1, as stated, fails on a JSON array: the body [[]] has no [query], the
    answer is a 400, and its only detail is for the field [body]. *)
Lemma validateBody_array_body_has_no_query_entry :
  let σ' := snd (validateBody askJijiSchema
                   (incoming (postRequest None (Some (JArray []))))) in
  exists b ds,
    res σ' = Some (400%Z, b) /\ details b = Some ds /\
    ~ (exists d, d ∈ ds /\ field d = js "query").
Proof.
  cbv zeta. eexists _, _. split; [vm_compute; reflexivity|].
  split; [reflexivity|].
  intros (d & Hd & Hf). apply list_elem_of_singleton in Hd. subst d.
  vm_compute in Hf. discriminate.
Qed.

(** C3, as amended.  A body whose [query] is the string [s] is accepted
    exactly when [s] itself, before trimming, has between 1 and 1000 code
    units and is not white space only; on acceptance the body is replaced by
    the parsed value, whose [query] is [s] trimmed (other members are
    dropped), and otherwise the answer is a 400. *)
Theorem validateBody_accepts_untrimmed_length
  (σ : Exchange) (o : gmap jsstr JSON) (s : jsstr) :
  body (req σ) = Some (JObject o) ->
  o !! js "query" = Some (JString s) ->
  forwarded σ = None ->
  let σ' := snd (validateBody askJijiSchema σ) in
  (forwarded σ' = Some None <->
     (1 <= length s <= 1000)%nat /\ whitespaceOnly s = false) /\
  (forwarded σ' = Some None ->
     body (req σ') = Some (JObject {[ js "query" := JString (trim s) ]}) /\
     res σ' = res σ) /\
  (forwarded σ' <> Some None ->
     forwarded σ' = None /\ exists b, res σ' = Some (400%Z, b)).
Proof.
  intros Hb Hq Hf. cbv zeta. js_run. rewrite Hb, (askJijiSchema_string o s Hq).
  rewrite <- stringIssues_nil_iff.
  destruct (stringIssues s) as [|i iss]; js_simpl.
  - split; [done|]. split; [done|]. done.
  - rewrite Hf. split; [split; done|]. split; [done|]. eauto.
Qed.

Lemma validateBody_accepts_untrimmed_length_witness :
  let σ := incoming (postRequest None (queryBody (js "  Explain RAG "))) in
  let σ' := snd (validateBody askJijiSchema σ) in
  (forwarded σ' = Some None <->
     (1 <= length (js "  Explain RAG ") <= 1000)%nat /\
     whitespaceOnly (js "  Explain RAG ") = false) /\
  (forwarded σ' = Some None ->
     body (req σ') =
       Some (JObject {[ js "query" := JString (trim (js "  Explain RAG ")) ]}) /\
     res σ' = res σ) /\
  (forwarded σ' <> Some None ->
     forwarded σ' = None /\ exists b, res σ' = Some (400%Z, b)).
Proof.
  apply (validateBody_accepts_untrimmed_length
           (incoming (postRequest None (queryBody (js "  Explain RAG "))))
           {[ js "query" := JString (js "  Explain RAG ") ]}
           (js "  Explain RAG "));
    [reflexivity | vm_compute; reflexivity | reflexivity].
Defined.

(** C3, as stated, fails: the letter a followed by 1000 spaces has length 1
    after trimming, and is rejected with a 400, since the upper bound is
    checked on the 1001 code units that were sent. *)
Lemma validateBody_long_padded_query_rejected :
  let s := 97 :: repeat 32 1000 in
  let σ' := snd (validateBody askJijiSchema
                   (incoming (postRequest None (queryBody s)))) in
  (1 <= length (trim s) <= 1000)%nat /\
  forwarded σ' <> Some None /\ fst <$> res σ' = Some 400%Z.
Proof.
  cbv zeta. split; [vm_compute; lia|].
  split; [vm_compute; discriminate | vm_compute; reflexivity].
Qed.

(** ** Search and the controller *)

Lemma supabase_configured (env : ProcessEnv) :
  isSupabaseConfigured env = true -> is_Some (supabase env).
Proof.
  unfold supabase. intros H. rewrite H.
  unfold isSupabaseConfigured, truthy in *.
  destruct (SUPABASE_URL env) as [[|]|], (SUPABASE_ANON_KEY env) as [[|]|];
    try discriminate. simpl. eauto.
Qed.

Lemma supabaseAdmin_configured (env : ProcessEnv) :
  isSupabaseAdminConfigured env = true -> is_Some (supabaseAdmin env).
Proof.
  unfold supabaseAdmin. intros H. rewrite H.
  unfold isSupabaseAdminConfigured, truthy in *.
  destruct (SUPABASE_URL env) as [[|]|],
    (SUPABASE_SERVICE_ROLE_KEY env) as [[|]|];
    try discriminate. simpl. eauto.
Qed.

(** [searchResources] always returns, touches nothing but the log, and
    returns the empty sequence when the search fails. *)
Lemma searchResources_returns
  (env : ProcessEnv) (be : Backend) (q : jsstr) (σ : Exchange) :
  exists rs σ',
    searchResources env be q σ = (Returned rs, σ') /\
    sameButJournal σ σ' /\
    (searchFails env be q -> rs = []).
Proof.
  unfold searchResources, searchFails, sameButJournal.
  destruct (isSupabaseConfigured env) eqn:Hc; cbn [andb negb].
  - destruct (bool_decide (is_Some (supabase env))); cbn [negb].
    + js_run. destruct (resources_search be q) as [r|e] eqn:Hs.
      * destruct (pg_error r) eqn:He; js_simpl.
        -- eexists _, _. split; [reflexivity|]. split; [done|]. done.
        -- eexists _, _. split; [reflexivity|]. split; [done|].
           intros [?|[[e ?]|(r' & e & Hr & He')]]; try done.
           injection Hr as <-. congruence.
      * js_simpl. eexists _, _. split; [reflexivity|]. split; [done|]. done.
    + eexists _, _. split; [reflexivity|]. split; [done|]. done.
  - eexists _, _. split; [reflexivity|]. split; [done|]. done.
Qed.

(** The controller on a validated body: it returns, answers 200 with the
    answer and the resources found, and starts one [saveQuery] with their
    ids. *)
Lemma handleAskJiji_answers
  (env : ProcessEnv) (be : Backend) (t : AnswerTable) (σ : Exchange)
  (o : gmap jsstr JSON) (q : jsstr) :
  body (req σ) = Some (JObject o) ->
  o !! js "query" = Some (JString q) ->
  let σ' := snd (handleAskJiji env be t σ) in
  exists rs,
    fst (handleAskJiji env be t σ) = Returned tt /\
    res σ' = Some (200%Z, askJijiResponse (generateMockAnswer t q) rs) /\
    detached σ' = detached σ ++
      [{| sc_userId := userIdOf (user (req σ)); sc_queryText := q;
          sc_answerText := generateMockAnswer t q;
          sc_resourceIds := List.map rr_id rs |}] /\
    req σ' = req σ /\ forwarded σ' = forwarded σ /\
    inserted σ' = inserted σ /\
    (searchFails env be q -> rs = []).
Proof.
  intros Hb Hq. cbv zeta. unfold handleAskJiji, queryOf. js_run.
  rewrite Hb, Hq. js_run.
  match goal with |- context [searchResources env be q ?s] =>
    destruct (searchResources_returns env be q s)
      as (rs & σ1 & E & (Hreq & Hres & Hfw & Hins & Hdet) & Hfail)
  end.
  rewrite E. js_simpl. exists rs.
  js_simpl; cbn [req forwarded inserted detached] in *.
  rewrite Hreq, Hfw, Hins, Hdet. done.
Qed.

(** Without a string [query] in the body the controller sends nothing. *)
Lemma handleAskJiji_needs_query
  (env : ProcessEnv) (be : Backend) (t : AnswerTable) (σ : Exchange) :
  (forall o q, body (req σ) = Some (JObject o) ->
     o !! js "query" <> Some (JString q)) ->
  res (snd (handleAskJiji env be t σ)) = res σ.
Proof.
  intros H. unfold handleAskJiji, queryOf. js_run.
  destruct (body (req σ)) as [[| | | | |o]|]; js_run; try reflexivity.
  specialize (H o). destruct (o !! js "query") as [[| | |q| |]|];
    js_run; try reflexivity.
  destruct (H q); reflexivity.
Qed.

(** C6.  When the store is unconfigured, and when the query throws or
    returns an error, [searchResources] returns the empty sequence, and the
    controller still answers 200 with [resources: []] and hands no error
    on. *)
Theorem search_failure_gives_empty_resources
  (env : ProcessEnv) (be : Backend) (t : AnswerTable) (σ : Exchange)
  (o : gmap jsstr JSON) (q : jsstr) :
  searchFails env be q ->
  body (req σ) = Some (JObject o) ->
  o !! js "query" = Some (JString q) ->
  fst (searchResources env be q σ) = Returned [] /\
  res (snd (handleAskJiji env be t σ))
    = Some (200%Z, askJijiResponse (generateMockAnswer t q) []) /\
  forwarded (snd (handleAskJiji env be t σ)) = forwarded σ.
Proof.
  intros Hfail Hb Hq. split.
  - destruct (searchResources_returns env be q σ) as (rs & σ' & E & _ & Hrs).
    rewrite E, (Hrs Hfail). reflexivity.
  - destruct (handleAskJiji_answers env be t σ o q Hb Hq)
      as (rs & _ & Hres & _ & _ & Hfw & _ & Hrs).
    rewrite Hres, Hfw, (Hrs Hfail). done.
Qed.

Lemma search_failure_gives_empty_resources_witness :
  let σ := incoming (postRequest None (queryBody (js "Explain RAG"))) in
  fst (searchResources liveEnv downBackend (js "Explain RAG") σ)
    = Returned [] /\
  res (snd (handleAskJiji liveEnv downBackend sampleAnswers σ))
    = Some (200%Z,
            askJijiResponse
              (generateMockAnswer sampleAnswers (js "Explain RAG")) []) /\
  forwarded (snd (handleAskJiji liveEnv downBackend sampleAnswers σ)) = None.
Proof.
  apply (search_failure_gives_empty_resources liveEnv downBackend
           sampleAnswers
           (incoming (postRequest None (queryBody (js "Explain RAG"))))
           {[ js "query" := JString (js "Explain RAG") ]} (js "Explain RAG"));
    [right; left; eexists; reflexivity | reflexivity
    | vm_compute; reflexivity].
Defined.

(** The background task sends at most the row of its call. *)
Lemma background_inserted
  (env : ProcessEnv) (be : Backend) (c : SaveQueryCall) (τ : Exchange) :
  inserted (snd (background env be c τ)) = inserted τ \/
  inserted (snd (background env be c τ)) = inserted τ ++ [rowOf c].
Proof.
  unfold background, saveQuery, insert_query, rowOf.
  destruct (negb _); js_run; [left; reflexivity|].
  destruct (queries_insert be _) as [r|e]; [destruct (pg_error r)|];
    js_simpl; right; reflexivity.
Qed.

(** C9.  When the controller answers 200, the response carries the
    resources found, the one [saveQuery] call it started was given exactly
    their ids, in order, and every row that call sends to the [queries]
    table has those ids as [resources_returned]. *)
Theorem saved_ids_are_response_ids
  (env : ProcessEnv) (be : Backend) (t : AnswerTable) (σ : Exchange)
  (b : ApiResponse) :
  res σ = None -> detached σ = [] -> inserted σ = [] ->
  let σ' := snd (handleAskJiji env be t σ) in
  res σ' = Some (200%Z, b) ->
  exists answer rs c,
    data b = Some (AskJijiData answer rs) /\
    detached σ' = [c] /\
    sc_resourceIds c = List.map rr_id rs /\
    Forall (fun row => resources_returned row = List.map rr_id rs)
      (inserted (settle env be σ')).
Proof.
  intros Hres Hdet Hins. cbv zeta. intros Hsent.
  destruct (body (req σ)) as [[| | | | |o]|] eqn:Hb;
    try (rewrite handleAskJiji_needs_query in Hsent by (intros; congruence);
         congruence).
  destruct (o !! js "query") as [[| | |q| |]|] eqn:Hq;
    try (rewrite handleAskJiji_needs_query in Hsent
           by (intros o' q' Ho'; rewrite Hb in Ho'; injection Ho' as <-;
               congruence);
         congruence).
  destruct (handleAskJiji_answers env be t σ o q Hb Hq)
    as (rs & _ & Hr & Hd & _ & _ & Hi & _).
  rewrite Hr in Hsent. injection Hsent as <-.
  rewrite Hdet in Hd. cbn [app] in Hd.
  eexists _, rs, _. split; [reflexivity|]. split; [exact Hd|].
  split; [reflexivity|].
  unfold settle. rewrite Hd, Hi, Hins. cbn [fold_left].
  match goal with |- context [background env be ?c ?τ] =>
    destruct (background_inserted env be c τ) as [E|E]; rewrite E
  end; cbn [inserted app]; repeat constructor.
Qed.

Lemma saved_ids_are_response_ids_witness :
  let σ := incoming (postRequest None (queryBody (js "Explain RAG"))) in
  let σ' := snd (handleAskJiji liveEnv upBackend sampleAnswers σ) in
  exists answer rs c,
    data (askJijiResponse
            (generateMockAnswer sampleAnswers (js "Explain RAG"))
            [toResourceResponse sampleResource])
      = Some (AskJijiData answer rs) /\
    detached σ' = [c] /\
    sc_resourceIds c = List.map rr_id rs /\
    Forall (fun row => resources_returned row = List.map rr_id rs)
      (inserted (settle liveEnv upBackend σ')).
Proof.
  apply (saved_ids_are_response_ids liveEnv upBackend sampleAnswers
           (incoming (postRequest None (queryBody (js "Explain RAG"))))
           (askJijiResponse
              (generateMockAnswer sampleAnswers (js "Explain RAG"))
              [toResourceResponse sampleResource]));
    [reflexivity | reflexivity | reflexivity | vm_compute; reflexivity].
Defined.

(** ** Authentication *)

(** Without a bearer header the middleware takes its first branch. *)
Lemma authenticate_lacksBearer
  (env : ProcessEnv) (be : Backend) (σ : Exchange) :
  lacksBearer (authorization (req σ)) ->
  authenticate env be σ =
    (if negb (isSupabaseConfigured env) then
       logger warn
         (js "Auth skipped: Supabase not configured, using mock user");;
       set_user mockUser;;
       next
     else
       res_status_json 401
         (failure (js "Authorization header required. Use: Bearer <token>")))
      σ.
Proof.
  intros H. unfold authenticate.
  unfold tryCatch at 1. unfold mbind at 1, Js_bind at 1, getReq at 1.
  destruct H as [H | (a & H & Hs)]; rewrite H; [|rewrite Hs; cbn [negb]].
  all: destruct (isSupabaseConfigured env); cbn [negb]; reflexivity.
Qed.

(** With a bearer header and no identity backend only the shape of the token
    is looked at. *)
Lemma authenticate_mock_bearer
  (env : ProcessEnv) (be : Backend) (σ : Exchange) (h : jsstr) :
  authorization (req σ) = Some h ->
  startsWith (js "Bearer ") h = true ->
  isSupabaseConfigured env = false ->
  authenticate env be σ =
    (logger warn (js "Auth in mock mode: Supabase not configured");;
     if negb (length (split 46 (substring 7 h)) =? 3)%nat then
       res_status_json 401 (failure (js "Invalid token format"))
     else
       set_user mockUser;;
       next) σ.
Proof.
  intros H Hs Hc. unfold authenticate.
  unfold tryCatch at 1. unfold mbind at 1, Js_bind at 1, getReq at 1.
  rewrite H, Hs, Hc. cbn [negb andb].
  destruct (length (split 46 (substring 7 h)) =? 3)%nat; reflexivity.
Qed.

Lemma validateBody_accepts (σ : Exchange) (o : gmap jsstr JSON) (s : jsstr) :
  body (req σ) = Some (JObject o) ->
  o !! js "query" = Some (JString s) ->
  (1 <= length s <= 1000)%nat -> whitespaceOnly s = false ->
  validateBody askJijiSchema σ =
    (set_body (JObject {[ js "query" := JString (trim s) ]});; next) σ.
Proof.
  intros Hb Hq Hl Hw. unfold validateBody at 1.
  unfold mbind at 1, Js_bind at 1, getReq at 1.
  rewrite Hb, (askJijiSchema_string o s Hq).
  rewrite (proj2 (stringIssues_nil_iff s)) by done. reflexivity.
Qed.

(** C4.  When the Authorization header is absent or does not start with
    [Bearer ]: with the identity backend configured the answer is 401, its
    error message names the expected header, and [next] is not called; with
    the backend unconfigured the fixed mock identity is attached to the
    request, [next] is called and nothing is sent. *)
Theorem authenticate_without_bearer
  (env : ProcessEnv) (be : Backend) (σ : Exchange) :
  lacksBearer (authorization (req σ)) ->
  forwarded σ = None ->
  res σ = None ->
  let σ' := snd (authenticate env be σ) in
  (isSupabaseConfigured env = true ->
     res σ' = Some (401%Z,
       failure (js "Authorization header required. Use: Bearer <token>")) /\
     forwarded σ' = None) /\
  (isSupabaseConfigured env = false ->
     user (req σ') =
       Some {| user_ident := js "mock-user-id";
               user_email := js "mock@example.com";
               user_role := js "authenticated" |} /\
     forwarded σ' = Some None /\
     res σ' = None).
Proof.
  intros H Hf Hr. cbv zeta. rewrite (authenticate_lacksBearer env be σ H).
  destruct (isSupabaseConfigured env); cbn [negb]; js_run;
    (split; [intros E|intros E]); try discriminate; auto.
Qed.

Lemma authenticate_without_bearer_witness :
  let σ := incoming (postRequest (Some (js "Basic dXNlcjpwYXNz")) None) in
  let σ' := snd (authenticate liveEnv upBackend σ) in
  (isSupabaseConfigured liveEnv = true ->
     res σ' = Some (401%Z,
       failure (js "Authorization header required. Use: Bearer <token>")) /\
     forwarded σ' = None) /\
  (isSupabaseConfigured liveEnv = false ->
     user (req σ') =
       Some {| user_ident := js "mock-user-id";
               user_email := js "mock@example.com";
               user_role := js "authenticated" |} /\
     forwarded σ' = Some None /\
     res σ' = None).
Proof.
  apply (authenticate_without_bearer liveEnv upBackend
           (incoming (postRequest (Some (js "Basic dXNlcjpwYXNz")) None)));
    [right; eexists; split; reflexivity | reflexivity | reflexivity].
Defined.

(** C2, as amended.  In mock mode a request with a valid body is treated as
    authenticated with the fixed mock identity, and answered 200, when it
    has no Authorization header, a header that does not start with
    [Bearer ], or a bearer token of exactly three dot-separated segments; a
    bearer token of any other shape is answered 401 and no identity is
    attached. *)
Theorem mock_mode_authenticates
  (env : ProcessEnv) (be : Backend) (t : AnswerTable) (r : Request)
  (o : gmap jsstr JSON) (s : jsstr) :
  isSupabaseConfigured env = false ->
  body r = Some (JObject o) ->
  o !! js "query" = Some (JString s) ->
  (1 <= length s <= 1000)%nat ->
  whitespaceOnly s = false ->
  let σ := postAskJiji env be t r in
  (mockModeAdmits (authorization r) ->
     user (req σ) = Some mockUser /\
     res σ = Some (200%Z, askJijiResponse (generateMockAnswer t (trim s)) []))
  /\
  (forall a, authorization r = Some a ->
     startsWith (js "Bearer ") a = true ->
     length (split 46 (substring 7 a)) <> 3%nat ->
     user (req σ) = user r /\
     res σ = Some (401%Z, failure (js "Invalid token format"))).
Proof.
  intros Hc Hb Hq Hl Hw. cbv zeta.
  unfold postAskJiji, askJijiRoute. cbn [dispatch].
  split.
  - intros Hadm.
    assert (Hauth : exists j,
      authenticate env be (incoming r) =
        (Returned tt,
         {| req := {| method := method r; path := path r;
                      authorization := authorization r; body := body r;
                      user := Some mockUser |};
            res := None; forwarded := Some None; journal := j;
            inserted := []; detached := [] |})).
    { destruct Hadm as [Hn | (a & Ha & [Hs | Hs])].
      - rewrite authenticate_lacksBearer by (left; exact Hn).
        rewrite Hc. cbn [negb]. js_run. eauto.
      - rewrite authenticate_lacksBearer by (right; eauto).
        rewrite Hc. cbn [negb]. js_run. eauto.
      - destruct (startsWith (js "Bearer ") a) eqn:Hsw.
        + rewrite (authenticate_mock_bearer env be (incoming r) a Ha Hsw Hc).
          rewrite Hs. cbn [Nat.eqb negb]. js_run. eauto.
        + rewrite authenticate_lacksBearer by (right; eauto).
          rewrite Hc. cbn [negb]. js_run. eauto. }
    destruct Hauth as [j ->]. js_simpl.
    rewrite (validateBody_accepts _ o s) by done. js_run.
    match goal with |- context [handleAskJiji env be t ?σ1] =>
      destruct (handleAskJiji_answers env be t σ1
                  {[ js "query" := JString (trim s) ]} (trim s))
        as (rs & Hret & Hres & _ & Hreq & Hfw & _ & Hfail);
        [reflexivity | apply lookup_singleton_eq |];
      destruct (handleAskJiji env be t σ1) as [c σ2] eqn:Hh
    end; cbn [fst snd] in *; subst c; js_simpl.
    rewrite Hfw; js_simpl.
    rewrite Hres, Hreq, (Hfail (or_introl Hc)); done.
  - intros a Ha Hs Hn.
    rewrite (authenticate_mock_bearer env be (incoming r) a Ha Hs Hc).
    apply Nat.eqb_neq in Hn. rewrite Hn. cbn [negb].
    unfold incoming. js_run. done.
Qed.

Lemma mock_mode_authenticates_witness :
  let r := postRequest (Some (js "Bearer a.b.c"))
             (queryBody (js "Explain RAG")) in
  user (req (postAskJiji mockEnv downBackend sampleAnswers r))
    = Some mockUser /\
  res (postAskJiji mockEnv downBackend sampleAnswers r)
    = Some (200%Z,
            askJijiResponse
              (generateMockAnswer sampleAnswers (trim (js "Explain RAG")))
              []).
Proof.
  apply (proj1 (mock_mode_authenticates mockEnv downBackend sampleAnswers
                  (postRequest (Some (js "Bearer a.b.c"))
                     (queryBody (js "Explain RAG")))
                  {[ js "query" := JString (js "Explain RAG") ]}
                  (js "Explain RAG")
                  eq_refl eq_refl
                  ltac:(vm_compute; reflexivity)
                  ltac:(vm_compute; lia)
                  eq_refl)).
  right. eexists. split; [reflexivity|]. right. vm_compute. reflexivity.
Defined.

(** C2, as stated, fails: in mock mode the header [Bearer abc] with the valid
    body [{"query": "Explain RAG"}] is answered 401, and no identity is
    attached. *)
Lemma mock_mode_rejects_malformed_bearer :
  let r := postRequest (Some (js "Bearer abc"))
             (queryBody (js "Explain RAG")) in
  isSupabaseConfigured mockEnv = false /\
  res (postAskJiji mockEnv downBackend sampleAnswers r)
    = Some (401%Z, failure (js "Invalid token format")) /\
  user (req (postAskJiji mockEnv downBackend sampleAnswers r)) = None.
Proof. cbv zeta. split; [|split]; vm_compute; reflexivity. Qed.

(** ** The answer generator *)

Lemma startsWith_app (p s : jsstr) : startsWith p (p ++ s) = true.
Proof.
  induction p as [|c p IH]; simpl; [reflexivity|].
  rewrite N.eqb_refl. exact IH.
Qed.

Lemma includes_startsWith (needle hay : jsstr) :
  startsWith needle hay = true -> includes needle hay = true.
Proof. intros H. destruct hay; simpl; rewrite H; reflexivity. Qed.

Lemma includes_app (needle pre post : jsstr) :
  includes needle (pre ++ needle ++ post) = true.
Proof.
  induction pre as [|c pre IH].
  - rewrite app_nil_l. apply includes_startsWith, startsWith_app.
  - simpl. rewrite IH. apply orb_true_r.
Qed.

Lemma toLowerCase_app (a b : jsstr) :
  toLowerCase (a ++ b) = toLowerCase a ++ toLowerCase b.
Proof. unfold toLowerCase. apply List.map_app. Qed.

Lemma toLowerCase_rag (c1 c2 c3 : N) :
  spellsRag c1 c2 c3 -> toLowerCase [c1; c2; c3] = js "rag".
Proof. intros ([->| ->] & [->| ->] & [->| ->]); reflexivity. Qed.

Lemma generateMockAnswer_rag (t : AnswerTable) (q : jsstr) :
  includes (js "rag") (toLowerCase q) = true ->
  generateMockAnswer t q = ragAnswer t.
Proof.
  intros H. unfold generateMockAnswer, answerRules.
  cbn [List.find]. unfold matches at 1. cbn [keywords existsb].
  rewrite H. reflexivity.
Qed.

Lemma find_none_rules (l : jsstr) (rules : list KeywordRule) :
  (forall r k, r ∈ rules -> k ∈ keywords r -> includes k l = false) ->
  List.find (matches l) rules = None.
Proof.
  induction rules as [|r rules IH]; intros H; simpl; [reflexivity|].
  assert (E : matches l r = false).
  { unfold matches. apply not_true_is_false. intros E.
    apply existsb_exists in E as (k & Hk & Hin).
    rewrite (H r k) in Hin; [discriminate | apply list_elem_of_here |].
    apply list_elem_of_In, Hk. }
  rewrite E. apply IH. intros r' k Hr Hk. apply (H r' k); [|exact Hk].
  apply list_elem_of_further, Hr.
Qed.

(** C5.  [generateMockAnswer] is a function of its input alone.  An input
    whose lower-cased form contains rag, in particular any input with the
    three letters in a row in any mix of cases, and so [Explain RAG],
    gets the RAG answer; an input whose lower-cased form contains none of the
    keywords of the ordered rules gets the fallback answer. *)
Theorem generateMockAnswer_keywords (t : AnswerTable) :
  (forall q, includes (js "rag") (toLowerCase q) = true ->
     generateMockAnswer t q = ragAnswer t) /\
  (forall pre post c1 c2 c3, spellsRag c1 c2 c3 ->
     generateMockAnswer t (pre ++ [c1; c2; c3] ++ post) = ragAnswer t) /\
  generateMockAnswer t (js "Explain RAG") = ragAnswer t /\
  (forall q,
     (forall r k, r ∈ answerRules t -> k ∈ keywords r ->
        includes k (toLowerCase q) = false) ->
     generateMockAnswer t q = fallbackAnswer t).
Proof.
  split; [apply generateMockAnswer_rag|]. split; [|split].
  - intros pre post c1 c2 c3 H. apply generateMockAnswer_rag.
    rewrite !toLowerCase_app, (toLowerCase_rag c1 c2 c3 H).
    apply includes_app.
  - apply generateMockAnswer_rag. reflexivity.
  - intros q H. unfold generateMockAnswer.
    rewrite (find_none_rules _ _ H). reflexivity.
Qed.

Lemma generateMockAnswer_keywords_witness :
  generateMockAnswer sampleAnswers (js "Cloud STORAGE buckets")
    = ragAnswer sampleAnswers /\
  generateMockAnswer sampleAnswers (js "What is a monad?")
    = fallbackAnswer sampleAnswers.
Proof.
  split.
  - apply (proj1 (generateMockAnswer_keywords sampleAnswers)).
    vm_compute. reflexivity.
  - apply (proj2 (proj2 (proj2 (generateMockAnswer_keywords sampleAnswers)))).
    intros r k Hr Hk. apply list_elem_of_In in Hr. simpl in Hr.
    destruct Hr as [<-|[<-|[]]]; apply list_elem_of_In in Hk; simpl in Hk;
      repeat match goal with
             | H : _ \/ _ |- _ => destruct H as [<-|H]
             | H : False |- _ => destruct H
             end; vm_compute; reflexivity.
Defined.

(** ** The query log *)

(** C7.  [saveQuery] always returns and never throws.  With the service-role
    client unconfigured it returns null and sends no row; when the insert
    throws or returns an error it returns null and the last thing it did
    was to log at error level. *)
Theorem saveQuery_never_throws
  (env : ProcessEnv) (be : Backend) (userId : option jsstr)
  (queryText answerText : jsstr) (resourceIds : list jsstr) (σ : Exchange) :
  let row := {| user_id := userId; query_text := queryText;
                answer_text := answerText;
                resources_returned := resourceIds |} in
  let out := saveQuery env be userId queryText answerText resourceIds σ in
  (exists v, fst out = Returned v) /\
  (isSupabaseAdminConfigured env = false ->
     fst out = Returned None /\ inserted (snd out) = inserted σ) /\
  (isSupabaseAdminConfigured env = true -> insertFails be row ->
     fst out = Returned None /\
     exists msg, journal (snd out)
       = journal σ ++ [{| level := error_level; text := msg |}]).
Proof.
  cbv zeta. unfold saveQuery, insert_query, insertFails.
  destruct (isSupabaseAdminConfigured env) eqn:Hc; cbn [andb negb].
  - rewrite bool_decide_eq_true_2 by (apply supabaseAdmin_configured, Hc).
    cbn [negb]. js_run.
    destruct (queries_insert be _) as [r|e] eqn:Hi.
    + destruct (pg_error r) eqn:He; js_simpl.
      * split; [eauto|]. split; [done|]. intros _ _. eauto.
      * split; [eauto|]. split; [done|].
        intros _ [[e ?]|(r' & e & Hr & He')]; [done|].
        injection Hr as <-. congruence.
    + js_simpl. split; [eauto|]. split; [done|]. intros _ _. eauto.
  - js_run. split; [eauto|]. split; [done|]. done.
Qed.

Lemma saveQuery_never_throws_witness :
  let out := saveQuery liveEnv downBackend (Some (js "u1"))
               (js "Explain RAG") (js "answer") [js "r1"]
               (incoming (postRequest None None)) in
  fst out = Returned None /\
  exists msg, journal (snd out)
    = [] ++ [{| level := error_level; text := msg |}].
Proof.
  apply (proj2 (proj2 (saveQuery_never_throws liveEnv downBackend
                         (Some (js "u1")) (js "Explain RAG") (js "answer")
                         [js "r1"] (incoming (postRequest None None)))));
    [reflexivity | left; eexists; reflexivity].
Defined.

(** ** The terminal handlers *)

(** C8, as amended.  The terminal error handler answers with the status code
    of a typed application error, when that is a code a response can be sent
    with (100 to 999), and with 500 for any other error; the body has
    [success: false], no [data], and as [error] the generic message when the
    service runs in production and the status is 500, and the error's own
    message in every other case.  For a typed application error whose status
    code lies outside 100..999 the handler throws and sends nothing. *)
Theorem errorHandler_status_and_message
  (env : ProcessEnv) (err : JsError) (σ : Exchange) :
  ((forall m c, err = AppError m c -> (100 <= c <= 999)%Z) ->
   exists status b,
     fst (errorHandler env err σ) = Returned tt /\
     res (snd (errorHandler env err σ)) = Some (status, b) /\
     (forall m c, err = AppError m c -> status = c) /\
     (forall m, err = Error m -> status = 500%Z) /\
     success b = false /\ data b = None /\
     (isProduction env = true -> status = 500%Z ->
        error b = Some (js "Internal server error")) /\
     (isProduction env = false \/ status <> 500%Z ->
        error b = Some (message_of err))) /\
  (forall m c, err = AppError m c -> ~ (100 <= c <= 999)%Z ->
     (exists e, fst (errorHandler env err σ) = Thrown e) /\
     res (snd (errorHandler env err σ)) = res σ).
Proof.
  unfold errorHandler. js_run. split.
  - intros Hc.
    assert (Hv : validStatus match err with
                             | Error _ => 500%Z
                             | AppError _ c => c
                             end = true).
    { destruct err as [m|m c]; [reflexivity|].
      specialize (Hc m c eq_refl). unfold validStatus. lia. }
    rewrite Hv. js_simpl. eexists _, _. split; [reflexivity|].
    split; [reflexivity|].
    split; [intros m c ->; reflexivity|].
    split; [intros m ->; reflexivity|].
    split; [reflexivity|]. split; [reflexivity|]. cbn [error failure].
    split.
    + intros -> E. rewrite E. reflexivity.
    + intros [-> | Hne]; [reflexivity|].
      apply Z.eqb_neq in Hne. rewrite Hne, andb_false_r. reflexivity.
  - intros m c -> Hc.
    assert (Hv : validStatus c = false) by (unfold validStatus; lia).
    rewrite Hv. js_simpl. split; [eexists; reflexivity | reflexivity].
Qed.

Lemma errorHandler_status_and_message_witness :
  exists b,
    res (snd (errorHandler mockEnv (AppError (js "Query limit reached") 429)
                (incoming (postRequest None None)))) = Some (429%Z, b) /\
    error b = Some (js "Query limit reached").
Proof.
  destruct (proj1 (errorHandler_status_and_message mockEnv
                     (AppError (js "Query limit reached") 429)
                     (incoming (postRequest None None))))
    as (status & b & _ & Hr & Hc & _ & _ & _ & _ & Hm).
  - intros m c [= _ <-]. lia.
  - rewrite (Hc _ _ eq_refl) in Hr. exists b. split; [exact Hr|].
    apply Hm. left. reflexivity.
Defined.

(** C8, as stated, fails: in production a typed application error with
    status 429 is answered with its own message, not the generic one. *)
Lemma errorHandler_production_keeps_message :
  isProduction liveEnv = true /\
  res (snd (errorHandler liveEnv (AppError (js "Query limit reached") 429)
              (incoming (postRequest None None))))
    = Some (429%Z, failure (js "Query limit reached")) /\
  js "Query limit reached" <> js "Internal server error".
Proof. split; [|split]; vm_compute; done. Qed.

(** ** Every response *)

Lemma failure_invariant (c : Z) (m : jsstr) :
  c ∈ [400; 401; 404; 500]%Z -> m <> [] ->
  sendsKnownStatus (c, failure m) /\ ApiResponse_invariant (c, failure m).
Proof.
  intros Hc Hm. split; [apply list_elem_of_further, Hc|].
  split; cbn [fst snd]; [intros _; eauto|].
  intros ->. apply list_elem_of_In in Hc. simpl in Hc.
  repeat destruct Hc as [Hc|Hc]; done.
Qed.

Lemma success_invariant (d : ResponseData) :
  let sent := (200%Z, {| success := true; data := Some d; error := None;
                         details := None |}) in
  sendsKnownStatus sent /\ ApiResponse_invariant sent.
Proof.
  cbv zeta. split; [apply list_elem_of_here|].
  split; cbn [fst snd]; [|intros _; split; [done|eauto]].
  intros H. apply list_elem_of_In in H. simpl in H.
  repeat destruct H as [H|H]; done.
Qed.

(** Whatever the header, the configuration and the auth service do, a
    response of [authenticate] is a 401 or a 500 of the error shape. *)
Lemma authenticate_invariant
  (env : ProcessEnv) (be : Backend) (σ : Exchange) (sent : Z * ApiResponse) :
  res σ = None ->
  res (snd (authenticate env be σ)) = Some sent ->
  sendsKnownStatus sent /\ ApiResponse_invariant sent.
Proof.
  intros Hn. unfold authenticate. js_run.
  destruct (authorization (req σ)) as [a|].
  2: { destruct (isSupabaseConfigured env); cbn [negb]; js_simpl; intros H;
       first [ congruence
            | injection H as <-; apply failure_invariant;
              [known_status | vm_compute; discriminate] ]. }
  destruct (startsWith (js "Bearer ") a); cbn [negb].
  2: { destruct (isSupabaseConfigured env); cbn [negb]; js_simpl; intros H;
       first [ congruence
            | injection H as <-; apply failure_invariant;
              [known_status | vm_compute; discriminate] ]. }
  destruct (negb _).
  - destruct (negb _); js_simpl; intros H; first [ congruence
            | injection H as <-; apply failure_invariant;
              [known_status | vm_compute; discriminate] ].
  - destruct (auth_getUser be _) as [resp|e]; js_simpl.
    + destruct (ur_error resp), (ur_user resp); js_simpl; intros H;
        first [ congruence
            | injection H as <-; apply failure_invariant;
              [known_status | vm_compute; discriminate] ].
    + intros H; first [ congruence
            | injection H as <-; apply failure_invariant;
              [known_status | vm_compute; discriminate] ].
Qed.

(** C10, as amended.  A response built by [authenticate], by [validateBody]
    (for any schema), by the controller, by [notFoundHandler] or by the
    health route has status 200, 400, 401, 404 or 500 and keeps the
    invariant: an error status goes with [success: false], a non-empty
    [error] and no [data], and 200 goes with [success: true] and a
    [data].  A response built by the terminal [errorHandler] has
    [success: false], no [data] and an [error] string, which is non-empty
    whenever the message of the error is. *)
Theorem responses_keep_ApiResponse_shape
  (env : ProcessEnv) (be : Backend) (t : AnswerTable) (h : Handler)
  (σ : Exchange) (sent : Z * ApiResponse) :
  constructs env be t h σ sent ->
  match h with
  | ErrorHandler err =>
      success sent.2 = false /\ data sent.2 = None /\
      exists e, error sent.2 = Some e /\ (message_of err <> [] -> e <> [])
  | _ => sendsKnownStatus sent /\ ApiResponse_invariant sent
  end.
Proof.
  intros [Hn Hs]. destruct h as [|schema| | |err|]; cbn [handlerCode] in Hs.
  - exact (authenticate_invariant env be σ sent Hn Hs).
  - revert Hs. js_run. destruct (schema (body (req σ))); js_simpl; intros Hs;
      try congruence.
    injection Hs as <-. split; [known_status|]. split; cbn [fst snd]; [|done].
    intros _. split; [done|]. split; [|done]. eexists. split; [reflexivity|].
    discriminate.
  - destruct (body (req σ)) as [[| | | | |o]|] eqn:Hb;
      try (rewrite handleAskJiji_needs_query in Hs by (intros; congruence);
           congruence).
    destruct (o !! js "query") as [[| | |q| |]|] eqn:Hq;
      try (rewrite handleAskJiji_needs_query in Hs
             by (intros o' q' Ho'; rewrite Hb in Ho'; injection Ho' as <-;
                 congruence);
           congruence).
    destruct (handleAskJiji_answers env be t σ o q Hb Hq)
      as (rs & _ & Hr & _).
    rewrite Hr in Hs. injection Hs as <-. apply success_invariant.
  - revert Hs. unfold notFoundHandler. js_run. intros Hs. injection Hs as <-.
    apply failure_invariant; [known_status | discriminate].
  - revert Hs. unfold errorHandler. js_run.
    destruct (validStatus _); js_simpl; intros Hs; [|congruence].
    injection Hs as <-. cbn [fst snd success data error failure].
    split; [done|]. split; [done|]. eexists. split; [reflexivity|].
    intros Hm. destruct (isProduction env && _); [discriminate | exact Hm].
  - revert Hs. unfold health. js_run. intros Hs. injection Hs as <-.
    apply success_invariant.
Qed.

Lemma responses_keep_ApiResponse_shape_witness :
  let sent := (404%Z, failure (js "Route POST / not found")) in
  sendsKnownStatus sent /\ ApiResponse_invariant sent.
Proof.
  apply (responses_keep_ApiResponse_shape mockEnv downBackend sampleAnswers
           NotFoundHandler (incoming (postRequest None None))
           (404%Z, failure (js "Route POST / not found"))).
  split; reflexivity.
Defined.

(** C10, as stated, fails at the terminal handler: outside production an
    error with the empty message is answered 500 with the empty string as
    [error]. *)
Lemma errorHandler_empty_message_breaks_invariant :
  constructs mockEnv downBackend sampleAnswers (ErrorHandler (Error []))
    (incoming (postRequest None None)) (500%Z, failure []) /\
  ~ ApiResponse_invariant (500%Z, failure []).
Proof.
  split; [split; reflexivity|].
  intros [H _]. destruct H as (_ & (e & He & Hne) & _).
  - known_status.
  - cbn in He. congruence.
Qed.

(** * Further properties of the code

    Properties read off the source beyond the claims of the written
    specification. *)

(** ** Authentication with the identity backend *)

Lemma authenticate_live_bearer
  (env : ProcessEnv) (be : Backend) (σ : Exchange) (h : jsstr) :
  authorization (req σ) = Some h ->
  startsWith (js "Bearer ") h = true ->
  isSupabaseConfigured env = true ->
  authenticate env be σ =
    match auth_getUser be (substring 7 h) with
    | Returned resp =>
        match ur_error resp, ur_user resp with
        | None, Some u =>
            (set_user
               {| user_ident := su_id u;
                  user_email := orElse (default [] (su_email u)) [];
                  user_role := orElse (default [] (su_role u))
                                 (js "authenticated") |};;
             logger debug (js "User authenticated successfully");;
             next) σ
        | _, _ =>
            (logger warn (js "Token validation failed");;
             res_status_json 401 (failure (js "Invalid or expired token"))) σ
        end
    | Thrown _ =>
        (logger error_level (js "Authentication error");;
         res_status_json 500
           (failure (js "Authentication service unavailable"))) σ
    end.
Proof.
  intros H Hs Hc. unfold authenticate.
  unfold tryCatch at 1. unfold mbind at 1, Js_bind at 1, getReq at 1.
  rewrite H, Hs, Hc.
  rewrite bool_decide_eq_true_2 by (apply supabase_configured, Hc).
  cbn [negb andb].
  unfold mbind at 1, Js_bind at 1, await at 1.
  destruct (auth_getUser be (substring 7 h)) as [resp|e]; [|reflexivity].
  destruct (ur_error resp), (ur_user resp); js_run; reflexivity.
Qed.

(** X1.  With the identity backend configured, a bearer header whose token
    (the header without its first seven code units) the auth service
    verifies makes [authenticate] attach the verified user, with the empty
    string for a missing e-mail and [authenticated] for a missing or empty
    role, call [next()] and send nothing. *)
Theorem authenticate_attaches_verified_user
  (env : ProcessEnv) (be : Backend) (σ : Exchange) (h : jsstr)
  (u : SupabaseUser) :
  authorization (req σ) = Some h ->
  startsWith (js "Bearer ") h = true ->
  isSupabaseConfigured env = true ->
  auth_getUser be (substring 7 h)
    = Returned {| ur_user := Some u; ur_error := None |} ->
  let σ' := snd (authenticate env be σ) in
  user (req σ') =
    Some {| user_ident := su_id u;
            user_email := default [] (su_email u);
            user_role := match su_role u with
                         | Some (c :: r) => c :: r
                         | _ => js "authenticated"
                         end |} /\
  forwarded σ' = Some None /\ res σ' = res σ /\
  body (req σ') = body (req σ).
Proof.
  intros H Hs Hc Hu. cbv zeta.
  rewrite (authenticate_live_bearer env be σ h H Hs Hc), Hu.
  cbn [ur_error ur_user]. js_run. split; [|done].
  do 2 f_equal. f_equal.
  - destruct (su_email u) as [[|]|]; reflexivity.
  - destruct (su_role u) as [[|]|]; reflexivity.
Qed.

Lemma authenticate_attaches_verified_user_witness :
  let σ' := snd (authenticate liveEnv upBackend
                   (incoming (postRequest (Some (js "Bearer a.b.c")) None))) in
  user (req σ') =
    Some {| user_ident := js "u1"; user_email := js "a@b.c";
            user_role := js "authenticated" |} /\
  forwarded σ' = Some None.
Proof.
  pose proof (authenticate_attaches_verified_user liveEnv upBackend
                (incoming (postRequest (Some (js "Bearer a.b.c")) None))
                (js "Bearer a.b.c")
                {| su_id := js "u1"; su_email := Some (js "a@b.c");
                   su_role := None |}
                eq_refl eq_refl eq_refl eq_refl) as (H1 & H2 & _).
  split; [exact H1 | exact H2].
Defined.

(** X2.  With the identity backend configured, a bearer token the auth
    service answers with an error or with no user is answered 401 [Invalid or
    expired token]; [next] is not called and the request is left as it
    was. *)
Theorem authenticate_refused_token_is_401
  (env : ProcessEnv) (be : Backend) (σ : Exchange) (h : jsstr) :
  authorization (req σ) = Some h ->
  startsWith (js "Bearer ") h = true ->
  isSupabaseConfigured env = true ->
  tokenRefused be (substring 7 h) ->
  let σ' := snd (authenticate env be σ) in
  res σ' = Some (401%Z, failure (js "Invalid or expired token")) /\
  forwarded σ' = forwarded σ /\ req σ' = req σ.
Proof.
  intros H Hs Hc (resp & Hr & Hbad). cbv zeta.
  rewrite (authenticate_live_bearer env be σ h H Hs Hc), Hr.
  destruct (ur_error resp) eqn:He, (ur_user resp) eqn:Hu; js_run; try done.
  destruct Hbad as [[? ?]|?]; done.
Qed.

Lemma authenticate_refused_token_is_401_witness :
  res (snd (authenticate liveEnv refusingBackend
              (incoming (postRequest (Some (js "Bearer a.b.c")) None))))
    = Some (401%Z, failure (js "Invalid or expired token")).
Proof.
  apply (authenticate_refused_token_is_401 liveEnv refusingBackend
           (incoming (postRequest (Some (js "Bearer a.b.c")) None))
           (js "Bearer a.b.c") eq_refl eq_refl eq_refl).
  eexists. split; [reflexivity|]. left. eexists. reflexivity.
Defined.

(** X3.  When the call to the auth service throws, [authenticate] catches
    it and answers 500 [Authentication service unavailable], not 401; it
    does not throw and does not call [next]. *)
Theorem authenticate_service_failure_is_500
  (env : ProcessEnv) (be : Backend) (σ : Exchange) (h : jsstr) (e : JsError) :
  authorization (req σ) = Some h ->
  startsWith (js "Bearer ") h = true ->
  isSupabaseConfigured env = true ->
  auth_getUser be (substring 7 h) = Thrown e ->
  let σ' := snd (authenticate env be σ) in
  fst (authenticate env be σ) = Returned tt /\
  res σ' = Some (500%Z, failure (js "Authentication service unavailable")) /\
  forwarded σ' = forwarded σ /\ req σ' = req σ.
Proof.
  intros H Hs Hc Ht. cbv zeta.
  rewrite (authenticate_live_bearer env be σ h H Hs Hc), Ht. js_run. done.
Qed.

Lemma authenticate_service_failure_is_500_witness :
  res (snd (authenticate liveEnv downBackend
              (incoming (postRequest (Some (js "Bearer a.b.c")) None))))
    = Some (500%Z, failure (js "Authentication service unavailable")).
Proof.
  apply (authenticate_service_failure_is_500 liveEnv downBackend
           (incoming (postRequest (Some (js "Bearer a.b.c")) None))
           (js "Bearer a.b.c") (Error (js "fetch failed"))
           eq_refl eq_refl eq_refl eq_refl).
Defined.

Lemma authenticate_outcome
  (env : ProcessEnv) (be : Backend) (σ : Exchange) :
  fst (authenticate env be σ) = Returned tt /\
  (authRejects σ (snd (authenticate env be σ)) \/
   authAdmits σ (snd (authenticate env be σ))) /\
  inserted (snd (authenticate env be σ)) = inserted σ /\
  detached (snd (authenticate env be σ)) = detached σ.
Proof.
  unfold authRejects, authAdmits, withUser.
  destruct (authorization (req σ)) as [h|] eqn:Hh.
  2: { rewrite authenticate_lacksBearer by (left; exact Hh).
       destruct (isSupabaseConfigured env); cbn [negb]; js_run.
       - split; [done|]. split; [|done]. left. eexists _, _.
         split; [reflexivity|]. split; [by left|]. done.
       - split; [done|]. split; [|done]. right. rewrite Hh. eauto. }
  destruct (startsWith (js "Bearer ") h) eqn:Hs.
  2: { rewrite authenticate_lacksBearer by (right; eauto).
       destruct (isSupabaseConfigured env); cbn [negb]; js_run.
       - split; [done|]. split; [|done]. left. eexists _, _.
         split; [reflexivity|]. split; [by left|]. done.
       - split; [done|]. split; [|done]. right. rewrite Hh. eauto. }
  destruct (isSupabaseConfigured env) eqn:Hc.
  - rewrite (authenticate_live_bearer env be σ h Hh Hs Hc).
    destruct (auth_getUser be (substring 7 h)) as [resp|e].
    + destruct (ur_error resp), (ur_user resp); js_run;
        (split; [done|]); (split; [|done]);
        try (left; eexists _, _; split; [reflexivity|];
             split; [by left|]; done).
      right. rewrite Hh. eauto.
    + js_run. split; [done|]. split; [|done]. left. eexists _, _.
      split; [reflexivity|]. split; [by right|]. done.
  - rewrite (authenticate_mock_bearer env be σ h Hh Hs Hc).
    destruct (negb _); js_run; (split; [done|]); (split; [|done]).
    + left. eexists _, _. split; [reflexivity|]. split; [by left|]. done.
    + right. rewrite Hh. eauto.
Qed.

(** X4.  On every request [authenticate] returns and does exactly one of two
    things: it answers 401 or 500 without calling [next] and without touching
    the request, or it calls [next()] with a user attached and the body
    untouched, and sends nothing.  It never calls [next(err)]. *)
Theorem authenticate_sends_or_forwards
  (env : ProcessEnv) (be : Backend) (σ : Exchange) :
  res σ = None -> forwarded σ = None ->
  let σ' := snd (authenticate env be σ) in
  fst (authenticate env be σ) = Returned tt /\
  ((exists c m, res σ' = Some (c, failure m) /\ (c = 401 \/ c = 500)%Z /\
      forwarded σ' = None /\ req σ' = req σ)
   \/
   (res σ' = None /\ forwarded σ' = Some None /\
    is_Some (user (req σ')) /\ body (req σ') = body (req σ))).
Proof.
  intros Hr Hf. cbv zeta.
  destruct (authenticate_outcome env be σ) as (Hret & Hout & _).
  split; [exact Hret|].
  destruct Hout as [(c & m & H1 & H2 & _ & H3 & H4) | (H1 & H2 & u & H3)].
  - left. exists c, m. rewrite H3, Hf. done.
  - right. rewrite H1, H3, Hr. cbn. eauto.
Qed.

Lemma authenticate_sends_or_forwards_witness :
  fst (authenticate liveEnv upBackend
         (incoming (postRequest (Some (js "Bearer a.b.c")) None)))
    = Returned tt.
Proof.
  apply (authenticate_sends_or_forwards liveEnv upBackend
           (incoming (postRequest (Some (js "Bearer a.b.c")) None))
           eq_refl eq_refl).
Defined.

(** X5.  In mock mode a bearer token is accepted exactly when it holds two
    dots, whatever stands between them (nothing will do); it then gets the
    mock identity, and otherwise the answer is 401 [Invalid token
    format]. *)
Theorem mock_bearer_needs_two_dots
  (env : ProcessEnv) (be : Backend) (σ : Exchange) (h : jsstr) :
  isSupabaseConfigured env = false ->
  authorization (req σ) = Some h ->
  startsWith (js "Bearer ") h = true ->
  forwarded σ = None ->
  let σ' := snd (authenticate env be σ) in
  (forwarded σ' = Some None <->
     length (filter (fun c => c = 46) (substring 7 h)) = 2%nat) /\
  (forwarded σ' = Some None -> user (req σ') = Some mockUser) /\
  (forwarded σ' <> Some None ->
     res σ' = Some (401%Z, failure (js "Invalid token format"))).
Proof.
  intros Hc Hh Hs Hf. cbv zeta.
  rewrite (authenticate_mock_bearer env be σ h Hh Hs Hc).
  pose proof (split_length 46 (substring 7 h)) as Hl.
  destruct (Nat.eqb_spec (length (split 46 (substring 7 h))) 3) as [E|E];
    cbn [negb]; js_run.
  - split; [split; [intros _; lia | done]|]. split; done.
  - rewrite Hf. split; [split; [done | intros; lia]|]. split; done.
Qed.

Lemma mock_bearer_needs_two_dots_witness :
  forwarded (snd (authenticate mockEnv downBackend
                    (incoming (postRequest (Some (js "Bearer ..")) None))))
    = Some None.
Proof.
  apply (proj1 (mock_bearer_needs_two_dots mockEnv downBackend
                  (incoming (postRequest (Some (js "Bearer ..")) None))
                  (js "Bearer ..") eq_refl eq_refl eq_refl eq_refl)).
  vm_compute. reflexivity.
Defined.

(** X6.  A client handle exists exactly when its flag is true, and then it
    was created from the URL and the key of the environment, both set and
    non-empty: a variable set to the empty string counts as unset. *)
Theorem clients_exist_iff_configured (env : ProcessEnv) :
  (is_Some (supabase env) <-> isSupabaseConfigured env = true) /\
  (is_Some (supabaseAdmin env) <-> isSupabaseAdminConfigured env = true) /\
  (forall c, supabase env = Some c ->
     SUPABASE_URL env = Some (clientUrl c) /\ clientUrl c <> [] /\
     SUPABASE_ANON_KEY env = Some (clientKey c) /\ clientKey c <> []) /\
  (forall c, supabaseAdmin env = Some c ->
     SUPABASE_URL env = Some (clientUrl c) /\ clientUrl c <> [] /\
     SUPABASE_SERVICE_ROLE_KEY env = Some (clientKey c) /\ clientKey c <> []).
Proof.
  unfold supabase, supabaseAdmin, isSupabaseConfigured,
    isSupabaseAdminConfigured, truthy, createClient.
  destruct (SUPABASE_URL env) as [[|a u]|],
    (SUPABASE_ANON_KEY env) as [[|b k]|],
    (SUPABASE_SERVICE_ROLE_KEY env) as [[|c s]|]; cbn;
    repeat split; try done; try (intros [? ?]; done);
    try (intros ? [= <-]; done); try (simplify_eq; done); eauto.
Qed.

(** ** More on strings *)

Lemma trimStart_headKept (s : jsstr) : headKept (trimStart s).
Proof.
  induction s as [|c s IH]; simpl; [exact I|].
  destruct (isWhiteSpace c) eqn:E; [exact IH | exact E].
Qed.

Lemma trimStart_fixed (s : jsstr) : headKept s -> trimStart s = s.
Proof. destruct s as [|c s]; simpl; [done|]. intros ->. done. Qed.

Lemma trimStart_suffix (s : jsstr) : exists w, s = w ++ trimStart s.
Proof.
  induction s as [|c s [w IH]]; simpl; [by exists []|].
  destruct (isWhiteSpace c); [|by exists []].
  exists (c :: w). simpl. by rewrite <- IH.
Qed.

Lemma trimEnd_prefix (s : jsstr) : exists w, s = trimEnd s ++ w.
Proof.
  unfold trimEnd. destruct (trimStart_suffix (rev s)) as [w Hw].
  exists (rev w). rewrite <- rev_app_distr, <- Hw. by rewrite rev_involutive.
Qed.

Lemma headKept_prefix (a b : jsstr) : headKept (a ++ b) -> headKept a.
Proof. destruct a; simpl; done. Qed.

Lemma trim_headKept (s : jsstr) : headKept (trim s).
Proof.
  unfold trim. destruct (trimEnd_prefix (trimStart s)) as [w Hw].
  apply (headKept_prefix _ w). rewrite <- Hw. apply trimStart_headKept.
Qed.

(** Trimming twice is trimming once. *)
Lemma trim_idempotent (s : jsstr) : trim (trim s) = trim s.
Proof.
  unfold trim at 1. rewrite (trimStart_fixed _ (trim_headKept s)).
  unfold trim, trimEnd. rewrite rev_involutive.
  rewrite (trimStart_fixed _ (trimStart_headKept _)). reflexivity.
Qed.

Lemma trimStart_length (s : jsstr) : (length (trimStart s) <= length s)%nat.
Proof.
  induction s as [|c s IH]; simpl; [lia|].
  destruct (isWhiteSpace c); simpl; lia.
Qed.

Lemma trim_length (s : jsstr) : (length (trim s) <= length s)%nat.
Proof.
  unfold trim, trimEnd. rewrite length_rev.
  etransitivity; [apply trimStart_length|]. rewrite length_rev.
  apply trimStart_length.
Qed.

(** ** More on the schema *)

Lemma runCheck_issues_grow (a : bool) (ch : z.StringCheck)
  (p : z.ParsePayload) :
  exists extra, z.issues (z.runCheck a ch p) = z.issues p ++ extra.
Proof.
  destruct ch as [n m|n m| |fn m]; simpl.
  - destruct (z.lengthOf (z.value p)) as [len|]; [|by exists []; rewrite app_nil_r].
    destruct (n <=? len)%nat; [by exists []; rewrite app_nil_r|]. simpl. eauto.
  - destruct (z.lengthOf (z.value p)) as [len|]; [|by exists []; rewrite app_nil_r].
    destruct (len <=? n)%nat; [by exists []; rewrite app_nil_r|]. simpl. eauto.
  - destruct a; [by exists []; rewrite app_nil_r|].
    destruct (z.value p) as [[]|]; by exists []; rewrite app_nil_r.
  - destruct a; [by exists []; rewrite app_nil_r|].
    destruct (z.value p) as [[| | |s| |]|]; try (by exists []; rewrite app_nil_r).
    destruct (fn s); [by exists []; rewrite app_nil_r|]. simpl. eauto.
Qed.

Lemma runChecks_issues_grow (chs : list z.StringCheck) (a : bool)
  (p : z.ParsePayload) :
  exists extra, z.issues (z.runChecks a chs p) = z.issues p ++ extra.
Proof.
  revert a p. induction chs as [|ch chs IH]; intros a p; simpl.
  - exists []. by rewrite app_nil_r.
  - destruct (IH (a || z.aborted
                         (drop (length (z.issues p))
                            (z.issues (z.runCheck a ch p))))
                (z.runCheck a ch p)) as [e2 H2].
    destruct (runCheck_issues_grow a ch p) as [e1 H1].
    exists (e1 ++ e2). rewrite H2, H1. by rewrite app_assoc.
Qed.

(** A [query] that is absent or not a string: the first issue is the type
    error of the string schema. *)
Lemma askJijiSchema_non_string (o : gmap jsstr JSON) :
  (forall s, o !! js "query" <> Some (JString s)) ->
  exists rest,
    askJijiSchema (Some (JObject o)) =
      z.ThrowsZodError
        (queryIssue (js "invalid_type") (js "Query must be a string") :: rest).
Proof.
  intros H. unfold askJijiSchema, z.object, z.runShape, z.runString.
  set (input := o !! js "query") in *.
  set (sch := z.string _ _).
  set (p1 := match input with
             | Some (JString _) => _
             | _ => _
             end).
  assert (Hp : z.issues p1 =
    [({| z.issue_code := js "invalid_type"; z.issue_path := [];
         z.issue_message := js "Query must be a string" |}, false)]).
  { subst p1. destruct input as [[| | |s| |]|]; try reflexivity.
    destruct (H s). reflexivity. }
  destruct (runChecks_issues_grow (z.checks sch) (z.aborted (z.issues p1)) p1)
    as [extra He].
  rewrite He, Hp. cbn [app List.map]. eexists. reflexivity.
Qed.

Lemma askJijiSchema_parsed_inv (input : option JSON) (v : JSON) :
  askJijiSchema input = z.Parsed v ->
  exists o s, input = Some (JObject o) /\
    o !! js "query" = Some (JString s) /\
    (1 <= length s <= 1000)%nat /\ whitespaceOnly s = false /\
    v = JObject {[ js "query" := JString (trim s) ]}.
Proof.
  intros H. destruct input as [[| | | | |o]|]; try discriminate.
  destruct (o !! js "query") as [[| | |s| |]|] eqn:Hq;
    try (destruct (askJijiSchema_non_string o) as [rest Hr];
         [intros s'; congruence | congruence]).
  rewrite (askJijiSchema_string o s Hq) in H.
  destruct (stringIssues s) eqn:Hi; [|discriminate].
  apply stringIssues_nil_iff in Hi as [Hl Hw].
  injection H as <-. eauto 10.
Qed.

(** X7.  Whatever the input, a value [askJijiSchema] accepts is an object
    with the single member [query], a string of 1 to 1000 code units
    that trimming leaves as it is; validating that value again accepts it
    unchanged. *)
Theorem askJijiSchema_output_is_normal (input : option JSON) (v : JSON) :
  askJijiSchema input = z.Parsed v ->
  (exists q, v = JObject {[ js "query" := JString q ]} /\
     (1 <= length q <= 1000)%nat /\ trim q = q) /\
  askJijiSchema (Some v) = z.Parsed v.
Proof.
  intros H.
  destruct (askJijiSchema_parsed_inv input v H)
    as (o & s & _ & _ & Hl & Hw & ->).
  assert (Hne : trim s <> []).
  { intros E. apply trim_nil_iff in E. congruence. }
  assert (Hlen : (1 <= length (trim s) <= 1000)%nat).
  { pose proof (trim_length s). destruct (trim s); [done|]. simpl in *. lia. }
  split.
  - exists (trim s). split; [done|]. split; [done|]. apply trim_idempotent.
  - rewrite (askJijiSchema_string _ (trim s)) by apply lookup_singleton_eq.
    rewrite (proj2 (stringIssues_nil_iff (trim s))).
    + by rewrite trim_idempotent.
    + split; [done|]. apply not_true_is_false. intros E.
      apply trim_nil_iff in E. rewrite trim_idempotent in E. done.
Qed.

Lemma askJijiSchema_output_is_normal_witness :
  askJijiSchema (Some (JObject {[ js "query" := JString (js "hi") ]}))
    = z.Parsed (JObject {[ js "query" := JString (js "hi") ]}).
Proof.
  apply (askJijiSchema_output_is_normal
           (Some (JObject {[ js "query" := JString (js "  hi ");
                             js "page" := JNumber 2 ]}))
           (JObject {[ js "query" := JString (js "hi") ]})).
  vm_compute. reflexivity.
Defined.

(** X8.  A body object whose [query] is absent or is not a string (a
    number, a boolean, null, an array, an object) is answered 400, the
    first detail being the field [query] with the message [Query must be a
    string] and the code [invalid_type]; [next] is not called and the
    request keeps its body. *)
Theorem validateBody_non_string_query (σ : Exchange) (o : gmap jsstr JSON) :
  body (req σ) = Some (JObject o) ->
  (forall s, o !! js "query" <> Some (JString s)) ->
  let σ' := snd (validateBody askJijiSchema σ) in
  exists ds,
    res σ' = Some (400%Z,
      validationResponse
        ({| field := js "query"; message := js "Query must be a string";
            code := js "invalid_type" |} :: ds)) /\
    forwarded σ' = forwarded σ /\ req σ' = req σ.
Proof.
  intros Hb Hq. cbv zeta. js_run. rewrite Hb.
  destruct (askJijiSchema_non_string o Hq) as [rest ->]. js_simpl.
  exists (List.map detailOf rest). done.
Qed.

Lemma validateBody_non_string_query_witness :
  let σ := incoming (postRequest None
             (Some (JObject {[ js "query" := JNumber 5 ]}))) in
  exists ds,
    res (snd (validateBody askJijiSchema σ)) = Some (400%Z,
      validationResponse
        ({| field := js "query"; message := js "Query must be a string";
            code := js "invalid_type" |} :: ds)) /\
    forwarded (snd (validateBody askJijiSchema σ)) = forwarded σ /\
    req (snd (validateBody askJijiSchema σ)) = req σ.
Proof.
  apply (validateBody_non_string_query
           (incoming (postRequest None
              (Some (JObject {[ js "query" := JNumber 5 ]}))))
           {[ js "query" := JNumber 5 ]} eq_refl).
  intros s H. vm_compute in H. discriminate H.
Defined.

(** ** The route as a whole *)

Lemma validateBody_outcome (σ : Exchange) :
  fst (validateBody askJijiSchema σ) = Returned tt /\
  inserted (snd (validateBody askJijiSchema σ)) = inserted σ /\
  detached (snd (validateBody askJijiSchema σ)) = detached σ /\
  ((exists b, res (snd (validateBody askJijiSchema σ)) = Some (400%Z, b) /\
      forwarded (snd (validateBody askJijiSchema σ)) = forwarded σ /\
      req (snd (validateBody askJijiSchema σ)) = req σ)
   \/
   (exists o s,
      body (req σ) = Some (JObject o) /\
      o !! js "query" = Some (JString s) /\
      (1 <= length s <= 1000)%nat /\ whitespaceOnly s = false /\
      validateBody askJijiSchema σ =
        (set_body (JObject {[ js "query" := JString (trim s) ]});; next) σ)).
Proof.
  destruct (askJijiSchema (body (req σ))) as [v|iss|e] eqn:Hp.
  - destruct (askJijiSchema_parsed_inv _ _ Hp)
      as (o & s & Hb & Hq & Hl & Hw & ->).
    rewrite (validateBody_accepts σ o s Hb Hq Hl Hw). js_run.
    split; [done|]. split; [done|]. split; [done|]. right. eauto 10.
  - js_run. rewrite Hp. js_simpl. split; [done|]. split; [done|].
    split; [done|]. left. eauto.
  - exfalso. unfold askJijiSchema, z.object in Hp.
    destruct (body (req σ)) as [[| | | | |o]|]; try discriminate.
    destruct (z.runShape _ o) as [out [|i iss]]; discriminate.
Qed.

Lemma postAskJiji_outcome
  (env : ProcessEnv) (be : Backend) (t : AnswerTable) (r : Request) :
  RouteOutcome env be t r (postAskJiji env be t r) /\
  inserted (postAskJiji env be t r) = [].
Proof.
  unfold postAskJiji, askJijiRoute. cbn [dispatch].
  destruct (authenticate_outcome env be (incoming r))
    as (Hret & Hout & Hins & Hdet).
  destruct (authenticate env be (incoming r)) as [c σ1].
  cbn [fst snd] in *. subst c. cbn [incoming forwarded res req inserted
    detached] in *.
  destruct Hout as [(c & m & H1 & H2 & _ & H3 & H4) | (H1 & H2 & u & H3)].
  { cbn [incoming forwarded res req] in *. rewrite H3.
    split; [|done]. by eapply RefusedByAuth. }
  cbn [incoming forwarded res req] in *. rewrite H2.
  set (σ2 := {| req := req σ1; res := res σ1; forwarded := None;
                journal := journal σ1; inserted := inserted σ1;
                detached := detached σ1 |}).
  destruct (validateBody_outcome σ2) as (Hret2 & Hins2 & Hdet2 & Hout2).
  destruct Hout2 as [(b & Hb1 & Hb2 & Hb3) | (o & s & Hb & Hq & Hl & Hw & Hv)].
  { destruct (validateBody askJijiSchema σ2) as [c σ3].
    cbn [fst snd] in *. subst c. rewrite Hb2. cbn [forwarded σ2].
    split; [|by rewrite Hins2]. eapply RefusedByValidation; eauto.
    - rewrite Hb3. exact H3.
    - rewrite Hdet2. exact Hdet. }
  rewrite Hv. js_run.
  match goal with |- context [handleAskJiji env be t ?σ3] =>
    destruct (handleAskJiji_answers env be t σ3
                {[ js "query" := JString (trim s) ]} (trim s))
      as (rs & Hret3 & Hres3 & Hdet3 & Hreq3 & Hfw3 & Hins3 & _);
      [reflexivity | apply lookup_singleton_eq |];
    destruct (handleAskJiji env be t σ3) as [c σ4]
  end.
  cbn [fst snd req res forwarded inserted detached σ2] in *. subst c.
  rewrite Hfw3. split; [|by rewrite Hins3].
  rewrite H3 in *. cbn [withUser body user] in *.
  eapply (Answered env be t r σ4 o s u rs); eauto.
  - rewrite Hreq3. reflexivity.
  - rewrite Hreq3. reflexivity.
  - rewrite Hdet3, Hdet. reflexivity.
Qed.

Lemma settle_nothing_detached (env : ProcessEnv) (be : Backend) (σ : Exchange) :
  detached σ = [] -> inserted (settle env be σ) = inserted σ.
Proof. intros H. unfold settle. rewrite H. reflexivity. Qed.

(** X9.  Every request to the route is answered, and with status 200, 400,
    401 or 500: the chain never falls through to the 404 handler and never
    ends without a response ([searchResources] as modelled above). *)
Theorem route_always_answers
  (env : ProcessEnv) (be : Backend) (t : AnswerTable) (r : Request) :
  exists c b,
    res (postAskJiji env be t r) = Some (c, b) /\
    c ∈ [200; 400; 401; 500]%Z.
Proof.
  destruct (postAskJiji_outcome env be t r) as [[] _].
  - eexists _, _. split; [exact Hres|]. destruct Hc as [-> | ->]; known_status.
  - eexists _, _. split; [exact Hres|]. known_status.
  - eexists _, _. split; [exact Hres|]. known_status.
Qed.

(** X10.  A request the route does not answer with 200 starts no
    [saveQuery] and sends no row to the [queries] table; a request answered
    200 starts exactly one call, which sends at most one row. *)
Theorem route_saves_only_what_it_answers
  (env : ProcessEnv) (be : Backend) (t : AnswerTable) (r : Request) :
  let σ := postAskJiji env be t r in
  (forall c b, res σ = Some (c, b) -> c <> 200%Z ->
     detached σ = [] /\ inserted (settle env be σ) = []) /\
  (forall b, res σ = Some (200%Z, b) ->
     length (detached σ) = 1%nat /\
     (length (inserted (settle env be σ)) <= 1)%nat).
Proof.
  cbv zeta. destruct (postAskJiji_outcome env be t r) as [Hout Hins].
  split.
  - intros c b Hr Hc.
    assert (Hd : detached (postAskJiji env be t r) = []).
    { destruct Hout; [done | done | congruence]. }
    split; [exact Hd|]. by rewrite settle_nothing_detached.
  - intros b Hr. destruct Hout as [c m H1 [-> | ->]| |];
      try (rewrite Hr in *; discriminate).
    rewrite Hdet. split; [reflexivity|].
    unfold settle. rewrite Hdet, Hins. cbn [fold_left].
    match goal with |- context [background env be ?c ?τ] =>
      destruct (background_inserted env be c τ) as [E|E]; rewrite E
    end; cbn [inserted app length]; lia.
Qed.

(** X11.  When the route answers 200, the body held a string [query], the
    answer of the response was generated from that string trimmed, the
    request body was replaced by the trimmed form, and the one [saveQuery]
    call carries the trimmed text, that answer and the id of the user
    attached by [authenticate]. *)
Theorem route_answers_the_trimmed_query
  (env : ProcessEnv) (be : Backend) (t : AnswerTable) (r : Request)
  (b : ApiResponse) :
  res (postAskJiji env be t r) = Some (200%Z, b) ->
  exists o s u rs,
    body r = Some (JObject o) /\ o !! js "query" = Some (JString s) /\
    b = askJijiResponse (generateMockAnswer t (trim s)) rs /\
    user (req (postAskJiji env be t r)) = Some u /\
    body (req (postAskJiji env be t r))
      = Some (JObject {[ js "query" := JString (trim s) ]}) /\
    detached (postAskJiji env be t r) =
      [{| sc_userId := userIdOf (Some u); sc_queryText := trim s;
          sc_answerText := generateMockAnswer t (trim s);
          sc_resourceIds := List.map rr_id rs |}].
Proof.
  intros Hr. destruct (postAskJiji_outcome env be t r) as [Hout _].
  destruct Hout as [c m H1 [-> | ->]| |];
    try (rewrite Hr in *; discriminate).
  exists o, s, u, rs. rewrite Hr in Hres. injection Hres as ->. done.
Qed.

Lemma route_answers_the_trimmed_query_witness :
  let r := postRequest None (queryBody (js "  Explain RAG ")) in
  exists o s u rs,
    body r = Some (JObject o) /\ o !! js "query" = Some (JString s) /\
    askJijiResponse (generateMockAnswer sampleAnswers (js "Explain RAG")) []
      = askJijiResponse (generateMockAnswer sampleAnswers (trim s)) rs /\
    user (req (postAskJiji mockEnv downBackend sampleAnswers r)) = Some u /\
    body (req (postAskJiji mockEnv downBackend sampleAnswers r))
      = Some (JObject {[ js "query" := JString (trim s) ]}) /\
    detached (postAskJiji mockEnv downBackend sampleAnswers r) =
      [{| sc_userId := userIdOf (Some u); sc_queryText := trim s;
          sc_answerText := generateMockAnswer sampleAnswers (trim s);
          sc_resourceIds := List.map rr_id rs |}].
Proof.
  apply (route_answers_the_trimmed_query mockEnv downBackend sampleAnswers
           (postRequest None (queryBody (js "  Explain RAG ")))
           (askJijiResponse
              (generateMockAnswer sampleAnswers (js "Explain RAG")) [])).
  vm_compute. reflexivity.
Defined.



(** X13.  With the identity backend configured, a verified token and a valid
    body give a 200, and the [saveQuery] call is made under the id of the
    verified user (under null when that id is the empty string), with the
    trimmed query. *)
Theorem verified_request_is_saved_under_its_user
  (env : ProcessEnv) (be : Backend) (t : AnswerTable) (r : Request)
  (h : jsstr) (u : SupabaseUser) (o : gmap jsstr JSON) (s : jsstr) :
  isSupabaseConfigured env = true ->
  authorization r = Some h ->
  startsWith (js "Bearer ") h = true ->
  auth_getUser be (substring 7 h)
    = Returned {| ur_user := Some u; ur_error := None |} ->
  body r = Some (JObject o) ->
  o !! js "query" = Some (JString s) ->
  (1 <= length s <= 1000)%nat ->
  whitespaceOnly s = false ->
  let σ := postAskJiji env be t r in
  exists rs,
    res σ = Some (200%Z, askJijiResponse (generateMockAnswer t (trim s)) rs) /\
    detached σ =
      [{| sc_userId := match su_id u with [] => None | i => Some i end;
          sc_queryText := trim s;
          sc_answerText := generateMockAnswer t (trim s);
          sc_resourceIds := List.map rr_id rs |}].
Proof.
  intros Hc Hh Hs Hu Hb Hq Hl Hw. cbv zeta.
  unfold postAskJiji, askJijiRoute. cbn [dispatch].
  rewrite (authenticate_live_bearer env be (incoming r) h Hh Hs Hc), Hu.
  cbn [ur_error ur_user]. unfold incoming, set_user, next.
  unfold mbind, Js_bind, mret, Js_ret, getReq, set_req, next_with, logger.
  js_simpl.
  rewrite (validateBody_accepts _ o s) by done. js_run.
  match goal with |- context [handleAskJiji env be t ?σ3] =>
    destruct (handleAskJiji_answers env be t σ3
                {[ js "query" := JString (trim s) ]} (trim s))
      as (rs & Hret3 & Hres3 & Hdet3 & Hreq3 & Hfw3 & Hins3 & _);
      [reflexivity | apply lookup_singleton_eq |];
    destruct (handleAskJiji env be t σ3) as [c σ4]
  end.
  cbn [fst snd req res forwarded inserted detached user] in *. subst c.
  rewrite Hfw3. exists rs. split; [exact Hres3|]. rewrite Hdet3.
  cbn [app userIdOf user_ident]. reflexivity.
Qed.

Lemma verified_request_is_saved_under_its_user_witness :
  let σ := postAskJiji liveEnv upBackend sampleAnswers
             (postRequest (Some (js "Bearer a.b.c"))
                (queryBody (js "Explain RAG"))) in
  exists rs,
    res σ = Some (200%Z,
      askJijiResponse
        (generateMockAnswer sampleAnswers (trim (js "Explain RAG"))) rs) /\
    detached σ =
      [{| sc_userId := Some (js "u1");
          sc_queryText := trim (js "Explain RAG");
          sc_answerText :=
            generateMockAnswer sampleAnswers (trim (js "Explain RAG"));
          sc_resourceIds := List.map rr_id rs |}].
Proof.
  apply (verified_request_is_saved_under_its_user liveEnv upBackend
           sampleAnswers
           (postRequest (Some (js "Bearer a.b.c"))
              (queryBody (js "Explain RAG")))
           (js "Bearer a.b.c")
           {| su_id := js "u1"; su_email := Some (js "a@b.c");
              su_role := None |}
           {[ js "query" := JString (js "Explain RAG") ]} (js "Explain RAG")
           eq_refl eq_refl eq_refl eq_refl eq_refl
           ltac:(vm_compute; reflexivity) ltac:(vm_compute; lia) eq_refl).
Defined.

(** ** The query log, continued *)

Lemma saveQuery_effect
  (env : ProcessEnv) (be : Backend) (userId : option jsstr)
  (queryText answerText : jsstr) (resourceIds : list jsstr) (σ : Exchange) :
  let row := {| user_id := userId; query_text := queryText;
                answer_text := answerText;
                resources_returned := resourceIds |} in
  let out := saveQuery env be userId queryText answerText resourceIds σ in
  sameButLogAndRows σ (snd out) /\
  inserted (snd out) =
    inserted σ ++ (if isSupabaseAdminConfigured env then [row] else []) /\
  exists v, fst out = Returned v.
Proof.
  cbv zeta. unfold saveQuery, insert_query, sameButLogAndRows.
  destruct (isSupabaseAdminConfigured env) eqn:Hc; cbn [andb negb].
  - rewrite bool_decide_eq_true_2 by (apply supabaseAdmin_configured, Hc).
    cbn [negb]. js_run.
    destruct (queries_insert be _) as [r|e];
      [destruct (pg_error r)|]; js_simpl; eauto 10.
  - js_run. rewrite app_nil_r. eauto 10.
Qed.

(** X14.  [saveQuery] sends exactly one row, built from its four arguments,
    when the service-role client is configured (whatever the insert then
    answers) and none otherwise; it changes neither request nor response;
    and when the insert returns no error it returns the stored row and logs
    the success. *)
Theorem saveQuery_sends_one_row_when_configured
  (env : ProcessEnv) (be : Backend) (userId : option jsstr)
  (queryText answerText : jsstr) (resourceIds : list jsstr) (σ : Exchange) :
  let row := {| user_id := userId; query_text := queryText;
                answer_text := answerText;
                resources_returned := resourceIds |} in
  let out := saveQuery env be userId queryText answerText resourceIds σ in
  inserted (snd out) =
    inserted σ ++ (if isSupabaseAdminConfigured env then [row] else []) /\
  req (snd out) = req σ /\ res (snd out) = res σ /\
  forwarded (snd out) = forwarded σ /\
  (forall r, isSupabaseAdminConfigured env = true ->
     queries_insert be row = Returned r -> pg_error r = None ->
     fst out = Returned (pg_data r) /\
     journal (snd out) =
       journal σ ++ [{| level := info; text := js "Query saved successfully" |}]).
Proof.
  cbv zeta.
  destruct (saveQuery_effect env be userId queryText answerText resourceIds σ)
    as ((H1 & H2 & H3 & _) & H4 & _).
  split; [exact H4|]. split; [exact H1|]. split; [exact H2|].
  split; [exact H3|].
  intros r Hc Hi He. unfold saveQuery, insert_query. rewrite Hc.
  rewrite bool_decide_eq_true_2 by (apply supabaseAdmin_configured, Hc).
  cbn [andb negb]. js_run. rewrite Hi, He. js_simpl. done.
Qed.

Lemma background_effect
  (env : ProcessEnv) (be : Backend) (c : SaveQueryCall) (τ : Exchange) :
  sameButLogAndRows τ (snd (background env be c τ)) /\
  inserted (snd (background env be c τ)) =
    inserted τ ++ (if isSupabaseAdminConfigured env then [rowOf c] else []).
Proof.
  unfold background.
  destruct (saveQuery_effect env be (sc_userId c) (sc_queryText c)
              (sc_answerText c) (sc_resourceIds c) τ) as (H1 & H2 & v & H3).
  cbv zeta in *. unfold tryCatch, mbind, Js_bind, mret, Js_ret.
  destruct (saveQuery env be _ _ _ _ τ) as [w σ1]. cbn [fst snd] in *.
  subst w. cbn [snd]. done.
Qed.

Lemma settle_fold_effect
  (env : ProcessEnv) (be : Backend) (cs : list SaveQueryCall) (τ : Exchange) :
  let τ' := fold_left (fun τ c => snd (background env be c τ)) cs τ in
  sameButLogAndRows τ τ' /\
  inserted τ' =
    inserted τ ++
    (if isSupabaseAdminConfigured env then List.map rowOf cs else []).
Proof.
  cbv zeta. revert τ. induction cs as [|c cs IH]; intros τ; cbn [fold_left].
  - split; [done|]. destruct (isSupabaseAdminConfigured env);
      cbn [List.map]; by rewrite app_nil_r.
  - destruct (IH (snd (background env be c τ)))
      as ((H1 & H2 & H3 & H4) & H5).
    destruct (background_effect env be c τ) as ((G1 & G2 & G3 & G4) & G5).
    split.
    + unfold sameButLogAndRows. rewrite H1, H2, H3, H4. done.
    + rewrite H5, G5. destruct (isSupabaseAdminConfigured env);
        cbn [List.map]; rewrite <- app_assoc; reflexivity.
Qed.

(** X15.  Letting the detached saves run to their end changes neither the
    response nor the request: it only sends, with the service-role client
    configured, one row per call, in the order the calls were started, and
    leaves no call pending. *)
Theorem settle_leaves_the_response
  (env : ProcessEnv) (be : Backend) (σ : Exchange) :
  res (settle env be σ) = res σ /\
  req (settle env be σ) = req σ /\
  forwarded (settle env be σ) = forwarded σ /\
  detached (settle env be σ) = [] /\
  inserted (settle env be σ) =
    inserted σ ++
    (if isSupabaseAdminConfigured env then List.map rowOf (detached σ)
     else []).
Proof.
  unfold settle.
  match goal with |- context [fold_left ?f ?cs ?τ] =>
    destruct (settle_fold_effect env be cs τ) as ((H1 & H2 & H3 & H4) & H5)
  end.
  cbv zeta in *. rewrite H1, H2, H3, H4, H5. done.
Qed.

(** ** The history of a user *)

(** X16.  [getUserQueries] always returns: the empty list, after a warning
    in the log, when the anonymous client is unconfigured; the empty list,
    after an error in the log, when the query throws or returns an error;
    and the rows of the answer, with nothing logged, otherwise (the empty
    list for a missing [data]); an omitted limit is 20. *)
Theorem getUserQueries_degrades_to_empty
  (env : ProcessEnv) (st : StorageBackend) (userId : jsstr)
  (limit : option Z) (σ : Exchange) :
  let out := getUserQueries env st userId limit σ in
  (exists rows, fst out = Returned rows) /\
  (isSupabaseConfigured env = false ->
     fst out = Returned [] /\
     journal (snd out) =
       journal σ ++
       [{| level := warn;
           text := js "Supabase not configured, returning empty history" |}])
  /\
  (isSupabaseConfigured env = true ->
   selectFails st userId (default 20%Z limit) ->
     fst out = Returned [] /\
     exists msg, journal (snd out)
       = journal σ ++ [{| level := error_level; text := msg |}]) /\
  (forall r, isSupabaseConfigured env = true ->
     queries_select st userId (default 20%Z limit) = Returned r ->
     pg_error r = None ->
     fst out = Returned (default [] (pg_data r)) /\ snd out = σ).
Proof.
  cbv zeta. unfold getUserQueries, selectFails.
  destruct (isSupabaseConfigured env) eqn:Hc; cbn [andb negb].
  - rewrite bool_decide_eq_true_2 by (apply supabase_configured, Hc).
    cbn [negb]. js_run.
    destruct (queries_select st userId _) as [r|e] eqn:Hs.
    + destruct (pg_error r) eqn:He; js_simpl.
      * split; [eauto|]. split; [done|]. split; [eauto|].
        intros r' _ [= <-] He'. congruence.
      * split; [eauto|]. split; [done|]. split.
        -- intros _ [[e ?]|(r' & e & Hr & He')]; [done|].
           injection Hr as <-. congruence.
        -- intros r' _ [= <-] _. done.
    + js_simpl. split; [eauto|]. split; [done|]. split; [eauto|]. done.
  - js_run. split; [eauto|]. split; [done|]. split; done.
Qed.

(** X17.  With the service-role key set and the anonymous key missing,
    [saveQuery] sends its row, while [getUserQueries] returns the empty
    history whatever the store holds: the history is read with the anonymous
    client. *)
Theorem service_role_only_saves_but_shows_no_history
  (env : ProcessEnv) (be : Backend) (st : StorageBackend)
  (userId qText aText : jsstr) (ids : list jsstr) (limit : option Z)
  (σ τ : Exchange) :
  isSupabaseAdminConfigured env = true ->
  isSupabaseConfigured env = false ->
  inserted (snd (saveQuery env be (Some userId) qText aText ids σ)) =
    inserted σ ++ [{| user_id := Some userId; query_text := qText;
                      answer_text := aText; resources_returned := ids |}] /\
  fst (getUserQueries env st userId limit τ) = Returned [].
Proof.
  intros Ha Hc. split.
  - destruct (saveQuery_effect env be (Some userId) qText aText ids σ)
      as (_ & H & _). cbv zeta in H. rewrite H, Ha. reflexivity.
  - unfold getUserQueries. rewrite Hc. reflexivity.
Qed.

Lemma service_role_only_saves_but_shows_no_history_witness :
  let σ := incoming (postRequest None None) in
  inserted (snd (saveQuery adminOnlyEnv upBackend (Some (js "u1"))
                   (js "Explain RAG") (js "answer") [] σ)) =
    inserted σ ++ [{| user_id := Some (js "u1");
                      query_text := js "Explain RAG";
                      answer_text := js "answer";
                      resources_returned := [] |}] /\
  fst (getUserQueries adminOnlyEnv sampleStorage (js "u1") None σ)
    = Returned [].
Proof.
  apply (service_role_only_saves_but_shows_no_history adminOnlyEnv upBackend
           sampleStorage (js "u1") (js "Explain RAG") (js "answer") [] None
           (incoming (postRequest None None))
           (incoming (postRequest None None)) eq_refl eq_refl).
Defined.

(** ** Splitting and joining *)

Lemma split_nonempty (sep : N) (s : jsstr) : split sep s <> [].
Proof.
  destruct s as [|c s]; simpl; [done|].
  destruct (c =? sep); [done|]. destruct (split sep s); done.
Qed.

(** Joining the segments of a split gives the string back. *)
Lemma join_split (sep : N) (s : jsstr) : join [sep] (split sep s) = s.
Proof.
  induction s as [|c s IH]; simpl; [reflexivity|].
  pose proof (split_nonempty sep s) as Hne.
  destruct (N.eqb_spec c sep) as [->|Hc].
  - destruct (split sep s) as [|seg segs]; [done|].
    cbn [join app] in *. by rewrite IH.
  - destruct (split sep s) as [|seg segs]; [done|].
    destruct segs; cbn [join app] in *; by rewrite <- IH.
Qed.

Lemma split_no_sep (sep : N) (s : jsstr) : sep ∉ s -> split sep s = [s].
Proof.
  induction s as [|c s IH]; intros H; simpl; [reflexivity|].
  apply not_elem_of_cons in H as [Hc Hs].
  destruct (N.eqb_spec c sep) as [->|_]; [done|]. by rewrite IH.
Qed.

Lemma last_split_segment (sep : N) (s : jsstr) :
  exists seg, last (split sep s) = Some seg /\ sep ∉ seg.
Proof.
  induction s as [|c s (seg & Hl & Hs)]; simpl.
  - exists []. split; [reflexivity | apply not_elem_of_nil].
  - pose proof (split_nonempty sep s) as Hne.
    destruct (N.eqb_spec c sep) as [->|Hc].
    + exists seg. split; [|done].
      destruct (split sep s); [done|]. exact Hl.
    + destruct (split sep s) as [|x [|y xs]]; [done| |].
      * injection Hl as <-. exists (c :: x). split; [reflexivity|].
        by apply not_elem_of_cons.
      * exists seg. split; [exact Hl | done].
Qed.

Lemma last_split_app (sep : N) (base ext : jsstr) :
  sep ∉ ext -> last (split sep (base ++ sep :: ext)) = Some ext.
Proof.
  intros H. induction base as [|c base IH]; simpl.
  - rewrite N.eqb_refl, split_no_sep by done. reflexivity.
  - assert (Hl := split_length sep (base ++ sep :: ext)).
    rewrite filter_app, filter_cons_True, length_app in Hl by done.
    cbn [length] in Hl.
    destruct (c =? sep);
      destruct (split sep (base ++ sep :: ext)) as [|x [|y xs]];
      cbn [length] in Hl; try lia; exact IH.
Qed.

(** ** File types *)

Lemma array_includes_spec (xs : list jsstr) (x : jsstr) :
  array_includes xs x = true <-> x ∈ xs.
Proof.
  unfold array_includes, eqb. rewrite existsb_exists. split.
  - intros (y & Hy & E). apply bool_decide_eq_true in E. subst y.
    by apply list_elem_of_In.
  - intros H. exists x. split; [by apply list_elem_of_In|].
    by apply bool_decide_eq_true.
Qed.

Lemma getFileType_of_segment (name ext : jsstr) :
  last (split 46 name) = Some ext ->
  (getFileType name = file_ppt <-> toLowerCase ext ∈ pptExtensions) /\
  (getFileType name = file_video <-> toLowerCase ext ∈ videoExtensions).
Proof.
  intros H. unfold getFileType. rewrite H. cbn [fmap option_fmap option_map default].
  fold pptExtensions videoExtensions.
  rewrite <- !array_includes_spec.
  destruct (toLowerCase ext) as [|c l] eqn:E; cbn [truthy andb]; unfold id.
  - split; split; intros Hx; try discriminate; vm_compute in Hx; discriminate.
  - destruct (array_includes pptExtensions (c :: l)) eqn:Hp.
    + split; [split; done|]. split; [intros Hx; discriminate|].
      intros Hv. exfalso.
      apply array_includes_spec in Hp, Hv.
      apply list_elem_of_In in Hp, Hv. simpl in Hp, Hv.
      repeat destruct Hp as [Hp|Hp]; try done;
        repeat destruct Hv as [Hv|Hv]; try done;
        rewrite <- Hp in Hv; vm_compute in Hv; discriminate.
    + destruct (array_includes videoExtensions (c :: l)); split; split; done.
Qed.

(** X18.  [getFileType] looks only at what follows the last dot, and a name
    without a dot is read as its own extension: for [ext] in Basic Latin
    without a dot, [base.ext] has the type of [ext], which is presentation
    or video exactly when [ext] lower-cased is in the respective list; a
    name ending in a dot is of type other. *)
Theorem getFileType_reads_last_extension (base ext : jsstr) :
  46 ∉ ext -> basicLatin ext ->
  getFileType (base ++ 46 :: ext) = getFileType ext /\
  (getFileType ext = file_ppt <-> toLowerCase ext ∈ pptExtensions) /\
  (getFileType ext = file_video <-> toLowerCase ext ∈ videoExtensions) /\
  (ext = [] -> getFileType (base ++ [46]) = file_other).
Proof.
  intros Hd _.
  assert (H1 := last_split_app 46 base ext Hd).
  assert (H2 : last (split 46 ext) = Some ext) by by rewrite split_no_sep.
  assert (E : getFileType (base ++ 46 :: ext) = getFileType ext).
  { unfold getFileType. by rewrite H1, H2. }
  split; [exact E|]. split; [apply (getFileType_of_segment ext ext H2)|].
  split; [apply (getFileType_of_segment ext ext H2)|].
  intros ->. rewrite E. reflexivity.
Qed.

Lemma getFileType_reads_last_extension_witness :
  getFileType (js "Lecture 1" ++ 46 :: js "PPTX") = getFileType (js "PPTX").
Proof.
  assert (Hd : 46 ∉ js "PPTX").
  { intros H. apply list_elem_of_In in H. vm_compute in H.
    repeat destruct H as [H|H]; try discriminate H. exact H. }
  assert (Hb : basicLatin (js "PPTX")).
  { unfold basicLatin. vm_compute. repeat constructor. }
  exact (proj1 (getFileType_reads_last_extension (js "Lecture 1") (js "PPTX")
                  Hd Hb)).
Defined.

(** ** Storage *)

Lemma orElse_nil (a : jsstr) : orElse a [] = a.
Proof. by destruct a. Qed.

Lemma mapJs_pure {A B} (f : A -> Js B) (g : A -> B) (xs : list A)
  (σ : Exchange) :
  (forall x, f x σ = (Returned (g x), σ)) ->
  mapJs f xs σ = (Returned (List.map g xs), σ).
Proof.
  intros H. induction xs as [|x xs IH]; [reflexivity|].
  cbn [mapJs List.map]. unfold mbind, Js_bind in *. rewrite H.
  fold (@mapJs A B). rewrite IH. reflexivity.
Qed.

Lemma getPublicUrl_configured
  (env : ProcessEnv) (st : StorageBackend) (p : jsstr) (σ : Exchange) :
  isSupabaseConfigured env = true ->
  getPublicUrl env st p σ
    = (Returned (storage_getPublicUrl st STORAGE_BUCKET p), σ).
Proof.
  intros Hc. unfold getPublicUrl. rewrite Hc.
  rewrite bool_decide_eq_true_2 by (apply supabase_configured, Hc).
  reflexivity.
Qed.

Lemma toStorageFile_configured
  (env : ProcessEnv) (be : Backend) (st : StorageBackend)
  (folder : option jsstr) (file : FileObject) (σ : Exchange) :
  isSupabaseConfigured env = true ->
  toStorageFile env be st folder file σ
    = (Returned (storageFileOf be st folder file), σ).
Proof.
  intros Hc. unfold toStorageFile, mbind, Js_bind.
  rewrite getPublicUrl_configured by exact Hc. reflexivity.
Qed.

Lemma listStorageFiles_run
  (env : ProcessEnv) (be : Backend) (st : StorageBackend)
  (folder : option jsstr) (σ : Exchange) :
  isSupabaseConfigured env = true ->
  listStorageFiles env be st folder σ =
    match storage_list st STORAGE_BUCKET (default [] folder) None with
    | Returned r =>
        match pg_error r with
        | Some _ =>
            (logger error_level (js "Error listing storage files");;
             mret []) σ
        | None =>
            (Returned
               (List.map (storageFileOf be st folder)
                  (List.filter (fun f => negb (isPlaceholder f))
                     (default [] (pg_data r)))), σ)
        end
    | Thrown _ =>
        (logger error_level (js "Unexpected error listing files");;
         mret []) σ
    end.
Proof.
  intros Hc. unfold listStorageFiles. rewrite Hc.
  rewrite bool_decide_eq_true_2 by (apply supabase_configured, Hc).
  cbn [andb negb]. rewrite orElse_nil.
  unfold tryCatch. unfold mbind at 1, Js_bind at 1, await at 1.
  destruct (storage_list st STORAGE_BUCKET (default [] folder) None) as [r|e];
    [|reflexivity].
  destruct (pg_error r); [reflexivity|].
  destruct (pg_data r) as [[|f fs]|]; try reflexivity.
  rewrite (mapJs_pure _ (storageFileOf be st folder)).
  - reflexivity.
  - intros x. by apply toStorageFile_configured.
Qed.

Lemma listStorageFiles_configured
  (env : ProcessEnv) (be : Backend) (st : StorageBackend)
  (folder : option jsstr) (σ : Exchange) :
  isSupabaseConfigured env = true ->
  fst (listStorageFiles env be st folder σ) =
    Returned
      match storage_list st STORAGE_BUCKET (default [] folder) None with
      | Returned r =>
          match pg_error r, pg_data r with
          | None, Some data_ =>
              List.map (storageFileOf be st folder)
                (List.filter (fun f => negb (isPlaceholder f)) data_)
          | _, _ => []
          end
      | Thrown _ => []
      end.
Proof.
  intros Hc. rewrite listStorageFiles_run by exact Hc.
  destruct (storage_list st STORAGE_BUCKET (default [] folder) None) as [r|e];
    [|reflexivity].
  destruct (pg_error r); [reflexivity|].
  destruct (pg_data r); reflexivity.
Qed.

(** X19.  With the store configured and a listing returned, [listStorageFiles]
    returns the entries in their order without the folder placeholder; each
    file has as path the folder, a slash and its name (the name alone when
    no folder or the empty folder was given), the public URL of that path
    and the type of its name. *)
Theorem listStorageFiles_maps_the_listing
  (env : ProcessEnv) (be : Backend) (st : StorageBackend)
  (folder : option jsstr) (σ : Exchange) (r : PostgrestResponse (list FileObject))
  (data_ : list FileObject) :
  isSupabaseConfigured env = true ->
  storage_list st STORAGE_BUCKET (default [] folder) None = Returned r ->
  pg_error r = None -> pg_data r = Some data_ ->
  exists files,
    fst (listStorageFiles env be st folder σ) = Returned files /\
    List.map sf_name files =
      List.filter (fun n => negb (eqb n (js ".emptyFolderPlaceholder")))
        (List.map fo_name data_) /\
    (length files <= length data_)%nat /\
    Forall (fun f =>
      sf_name f <> js ".emptyFolderPlaceholder" /\
      sf_path f = (if truthy folder
                   then default [] folder ++ js "/" ++ sf_name f
                   else sf_name f) /\
      sf_url f = storage_getPublicUrl st STORAGE_BUCKET (sf_path f) /\
      sf_type f = getFileType (sf_name f)) files.
Proof.
  intros Hc Hl He Hd. eexists. split.
  { rewrite (listStorageFiles_configured env be st folder σ Hc), Hl, He, Hd.
    reflexivity. }
  split; [|split].
  - clear Hd. induction data_ as [|f fs IH]; [reflexivity|].
    cbn [List.filter List.map]. unfold isPlaceholder at 1.
    destruct (eqb (fo_name f) _); cbn [negb List.map];
      [exact IH | f_equal; exact IH].
  - rewrite length_map. apply List.filter_length_le.
  - apply Forall_map, Forall_forall. intros f Hf.
    apply list_elem_of_In, filter_In in Hf as [_ Hf].
    unfold isPlaceholder, eqb in Hf.
    apply negb_true_iff, bool_decide_eq_false in Hf.
    cbn [storageFileOf sf_name sf_path sf_url sf_type]. done.
Qed.

Lemma listStorageFiles_maps_the_listing_witness :
  exists files,
    fst (listStorageFiles liveEnv upBackend sampleStorage
           (Some (js "presentations")) (incoming (postRequest None None)))
      = Returned files /\ List.map sf_name files = [js "rag-intro.pptx"].
Proof.
  destruct (listStorageFiles_maps_the_listing liveEnv upBackend sampleStorage
              (Some (js "presentations")) (incoming (postRequest None None))
              _ _ eq_refl eq_refl eq_refl eq_refl)
    as (files & H1 & H2 & _).
  exists files. split; [exact H1 | exact H2].
Defined.

(** X20.  [listStorageFiles] always returns: the four sample files in mock
    mode, the empty list (after an error log) when the listing throws or
    returns an error, and the empty list, silently, for a missing or empty
    listing. *)
Theorem listStorageFiles_degrades
  (env : ProcessEnv) (be : Backend) (st : StorageBackend)
  (folder : option jsstr) (σ : Exchange) :
  let out := listStorageFiles env be st folder σ in
  (exists files, fst out = Returned files) /\
  (isSupabaseConfigured env = false ->
     fst out = Returned (getSampleFiles be) /\
     length (getSampleFiles be) = 4%nat) /\
  (isSupabaseConfigured env = true ->
   listFails st (default [] folder) None ->
     fst out = Returned [] /\
     exists msg, journal (snd out)
       = journal σ ++ [{| level := error_level; text := msg |}]) /\
  (forall r, isSupabaseConfigured env = true ->
     storage_list st STORAGE_BUCKET (default [] folder) None = Returned r ->
     pg_error r = None -> pg_data r = None \/ pg_data r = Some [] ->
     fst out = Returned [] /\ snd out = σ).
Proof.
  cbv zeta. destruct (isSupabaseConfigured env) eqn:Hc.
  - rewrite listStorageFiles_run by exact Hc. unfold listFails.
    destruct (storage_list st STORAGE_BUCKET (default [] folder) None)
      as [r|e] eqn:Hs.
    + destruct (pg_error r) eqn:He; js_run.
      * split; [eauto|]. split; [done|].
        split; [intros _ _; split; [reflexivity | eauto]|].
        intros r' _ [= <-] He'. congruence.
      * split; [eauto|]. split; [done|]. split.
        -- intros _ [[e ?]|(r' & e & Hr & He')]; [done|].
           injection Hr as <-. congruence.
        -- intros r' _ [= <-] _ [Hd | Hd]; rewrite Hd; done.
    + js_run. split; [eauto|]. split; [done|].
      split; [intros _ _; split; [reflexivity | eauto]|]. done.
  - unfold listStorageFiles. rewrite Hc. cbn [andb negb]. js_run.
    split; [eauto|]. split; [done|]. split; done.
Qed.

(** X21.  With the store configured every file [getFilesByType] returns lies
    in the folder of the type asked for; in mock mode it returns all the
    sample files whatever the type, presentations and videos alike. *)
Theorem getFilesByType_folder_or_all_samples
  (env : ProcessEnv) (be : Backend) (st : StorageBackend)
  (ty : ResourceType) (σ : Exchange) :
  (isSupabaseConfigured env = true ->
     exists files,
       fst (getFilesByType env be st ty σ) = Returned files /\
       Forall (fun f => sf_path f = folderOf ty ++ js "/" ++ sf_name f) files)
  /\
  (isSupabaseConfigured env = false ->
     fst (getFilesByType env be st ty σ) = Returned (getSampleFiles be) /\
     (exists f, f ∈ getSampleFiles be /\ sf_type f = file_ppt) /\
     (exists f, f ∈ getSampleFiles be /\ sf_type f = file_video)).
Proof.
  split; intros Hc; unfold getFilesByType.
  - rewrite listStorageFiles_configured by done. eexists. split; [reflexivity|].
    destruct (storage_list _ _ _ _) as [r|e]; [|constructor].
    destruct (pg_error r); [constructor|].
    destruct (pg_data r) as [data_|]; [|constructor].
    apply Forall_map, Forall_forall. intros f _.
    destruct ty; reflexivity.
  - split.
    + unfold listStorageFiles. rewrite Hc. reflexivity.
    + split; eexists.
      * split; [apply list_elem_of_here | reflexivity].
      * split; [do 2 apply list_elem_of_further; apply list_elem_of_here
               | reflexivity].
Qed.

(** X22.  In every mode and for every folder, each file [listStorageFiles]
    returns has the type [getFileType] gives its name and the URL
    [getPublicUrl] gives its path; the hard-coded sample files included. *)
Theorem listed_files_are_consistent
  (env : ProcessEnv) (be : Backend) (st : StorageBackend)
  (folder : option jsstr) (σ : Exchange) (files : list StorageFile) :
  fst (listStorageFiles env be st folder σ) = Returned files ->
  Forall (fun f =>
    sf_type f = getFileType (sf_name f) /\
    forall τ, fst (getPublicUrl env st (sf_path f) τ) = Returned (sf_url f))
    files.
Proof.
  destruct (isSupabaseConfigured env) eqn:Hc.
  - rewrite listStorageFiles_configured by done. intros [= <-].
    destruct (storage_list _ _ _ _) as [r|e]; [|constructor].
    destruct (pg_error r); [constructor|].
    destruct (pg_data r) as [data_|]; [|constructor].
    apply Forall_map, Forall_forall. intros f _. split; [reflexivity|].
    intros τ. by rewrite getPublicUrl_configured.
  - unfold listStorageFiles, getPublicUrl. rewrite Hc. cbn [andb negb].
    js_run. intros [= <-]. unfold getSampleFiles.
    repeat constructor; vm_compute; reflexivity.
Qed.

Lemma listed_files_are_consistent_witness :
  Forall (fun f =>
    sf_type f = getFileType (sf_name f) /\
    forall τ, fst (getPublicUrl mockEnv sampleStorage (sf_path f) τ)
              = Returned (sf_url f))
    (getSampleFiles downBackend).
Proof.
  apply (listed_files_are_consistent mockEnv downBackend sampleStorage None
           (incoming (postRequest None None)) (getSampleFiles downBackend)).
  reflexivity.
Defined.

Lemma last_removelast {A} (l : list A) (y : A) :
  last l = Some y -> l = removelast l ++ [y].
Proof.
  induction l as [|x [|x' l] IH]; intros H; try done.
  - injection H as ->. reflexivity.
  - cbn [removelast app]. f_equal. apply IH. exact H.
Qed.

Lemma join_snoc (sep : jsstr) (xs : list jsstr) (y : jsstr) :
  xs <> [] -> join sep (xs ++ [y]) = join sep xs ++ sep ++ y.
Proof.
  induction xs as [|x [|x' xs] IH]; intros H; try done.
  cbn [app join] in *. rewrite IH by done. by rewrite <- !app_assoc.
Qed.

(** A path is its folder, a slash and its last segment; without a slash it
    is its last segment alone and the folder is empty. *)
Lemma path_folder_and_name (p : jsstr) :
  exists base,
    last (split 47 p) = Some base /\ (47 ∉ base) /\
    ((p = base /\ join [47] (removelast (split 47 p)) = []) \/
     p = join [47] (removelast (split 47 p)) ++ 47 :: base).
Proof.
  destruct (last_split_segment 47 p) as (base & Hl & Hb).
  exists base. split; [exact Hl|]. split; [exact Hb|].
  pose proof (join_split 47 p) as Hj.
  pose proof (last_removelast _ _ Hl) as Hd.
  destruct (removelast (split 47 p)) as [|x xs] eqn:Hr.
  - left. rewrite Hd in Hj. cbn in Hj. done.
  - right. rewrite Hd, join_snoc in Hj by done. by rewrite <- Hj at 1.
Qed.

(** X23.  [fileExists] is false in mock mode; otherwise it lists the folder
    of the path (what precedes the last slash; the root when there is none)
    searching for the last segment, and is true exactly when that listing
    returns a non-empty [data] and no error; a throw gives false, a missing
    [data] gives null. *)
Theorem fileExists_searches_the_parent_folder
  (env : ProcessEnv) (st : StorageBackend) (p : jsstr) (σ : Exchange) :
  (isSupabaseConfigured env = false ->
     fileExists env st p σ = (Returned (Some false), σ)) /\
  (isSupabaseConfigured env = true ->
     exists dir base,
       (47 ∉ base) /\
       ((p = base /\ dir = []) \/ p = dir ++ 47 :: base) /\
       fileExists env st p σ =
         (Returned
            match storage_list st STORAGE_BUCKET dir (Some base) with
            | Returned r =>
                match pg_error r, pg_data r with
                | Some _, _ => Some false
                | None, None => None
                | None, Some data_ => Some (0 <? length data_)%nat
                end
            | Thrown _ => Some false
            end, σ)).
Proof.
  split; intros Hc; unfold fileExists; rewrite Hc.
  - reflexivity.
  - rewrite bool_decide_eq_true_2 by (apply supabase_configured, Hc).
    cbn [andb negb].
    destruct (path_folder_and_name p) as (base & Hl & Hb & Hp).
    exists (join (js "/") (removelast (split 47 p))), base.
    split; [exact Hb|]. split; [exact Hp|]. rewrite Hl. js_run.
    destruct (storage_list _ _ _ _) as [r|e]; reflexivity.
Qed.

(** X24.  [getSignedUrl] always returns: null in mock mode, null after an
    error log when signing throws, returns an error, or returns neither
    error nor data, and the signed URL otherwise; an omitted expiry is 3600
    seconds. *)
Theorem getSignedUrl_degrades_to_null
  (env : ProcessEnv) (st : StorageBackend) (p : jsstr)
  (expiresInSeconds : option Z) (σ : Exchange) :
  let out := getSignedUrl env st p expiresInSeconds σ in
  (exists v, fst out = Returned v) /\
  (isSupabaseConfigured env = false -> fst out = Returned None) /\
  (isSupabaseConfigured env = true ->
   signFails st p (default 3600%Z expiresInSeconds) ->
     fst out = Returned None /\
     exists msg, journal (snd out)
       = journal σ ++ [{| level := error_level; text := msg |}]) /\
  (forall r u, isSupabaseConfigured env = true ->
     storage_createSignedUrl st STORAGE_BUCKET p
       (default 3600%Z expiresInSeconds) = Returned r ->
     pg_error r = None -> pg_data r = Some u ->
     fst out = Returned (Some u) /\ snd out = σ).
Proof.
  cbv zeta. unfold getSignedUrl, signFails.
  destruct (isSupabaseConfigured env) eqn:Hc; cbn [andb negb].
  - rewrite bool_decide_eq_true_2 by (apply supabase_configured, Hc).
    cbn [negb]. js_run.
    destruct (storage_createSignedUrl st STORAGE_BUCKET p _) as [r|e] eqn:Hs.
    + destruct (pg_error r) eqn:He; js_simpl.
      * split; [eauto|]. split; [done|]. split; [eauto|].
        intros r' u _ [= <-] He'. congruence.
      * destruct (pg_data r) eqn:Hd; js_simpl.
        -- split; [eauto|]. split; [done|]. split.
           ++ intros _ [[e ?]|[(r' & e & Hr & He')|(r' & Hr & Hd')]];
                [done| |]; injection Hr as <-; congruence.
           ++ intros r' u _ [= <-] _ Hu. split; [congruence | reflexivity].
        -- split; [eauto|]. split; [done|]. split; [eauto|].
           intros r' u _ [= <-] _ ?. congruence.
    + js_simpl. split; [eauto|]. split; [done|]. split; [eauto|]. done.
  - js_run. split; [eauto|]. split; [done|]. split; done.
Qed.
